(** * A shallow embedding of the Instagram-clone client

    The application is a thin client over a hosted Postgres platform.  The
    data-access layer ([lib/api]) turns application intents into platform
    requests; the view components ([PostCard], [Profile], [CommentsDialog])
    keep local interaction state and call the data-access layer.

    The embedding follows that split:
    - table rows are records whose columns are those of [supabase/schema.sql];
    - every [await supabase...] of the data-access layer is a [Request], and
      an [async] function is a program ([Prog]) over requests, which can be
      run against any platform ([Handler]) and leaves a trace of the requests
      it issued together with the responses it got;
    - a view component is a record of its [useState] cells; an [async] event
      handler is split at its [await]: the synchronous part returns the new
      cells and the suspended rest of the handler. *)

From stdpp Require Import gmap strings pretty list sorting.
From Stdlib Require Import ZArith Ascii.

Set Default Proof Using "Type".
Local Open Scope Z_scope.

(** ** Rows of the relational schema ([supabase/schema.sql]) *)

(** [created_at TIMESTAMPTZ] columns are instants; they are kept as integers
    (microseconds since the epoch, the resolution Postgres stores). *)
Definition timestamptz := Z.

Module Profiles.
Record row := {
  id : string;
  username : string;
  full_name : option string;
  bio : option string;
  avatar_url : option string;
}.
End Profiles.

Module Posts.
(** A post row as selected by the data-access layer: all columns, and the
    owning profile expanded ([profile:profiles[*]]). *)
Record row := {
  id : string;
  user_id : string;
  image_url : string;
  caption : option string;
  created_at : timestamptz;
  profile : option Profiles.row;
}.
End Posts.

Module Likes.
Record row := { id : string; post_id : string; user_id : string }.
End Likes.

Module Comments.
Record row := {
  id : string;
  post_id : string;
  user_id : string;
  content : string;
  created_at : timestamptz;
  profile : option Profiles.row;
}.
End Comments.

Module Follows.
Record row := { id : string; follower_id : string; following_id : string }.
End Follows.

(** The result of [.select('post_id')]: rows with that single column. *)
Record PostIdRow := { post_id : string }.

(** [{...post, likes_count, comments_count, is_liked}]: the spread of a
    selected row, with the three derived fields set. *)
Record Decorated (R : Type) := {
  row : R;
  likes_count : nat;
  comments_count : nat;
  is_liked : bool;
}.
Arguments row {R} _.
Arguments likes_count {R} _.
Arguments comments_count {R} _.
Arguments is_liked {R} _.

(** A post as the views receive it. *)
Definition Post := Decorated Posts.row.

(** ** Platform responses *)

Record PgError := { code : string; message : string }.

(** [{ data, error }] *)
Record Response (A : Type) := { data : option A; error : option PgError }.
Arguments data {A} _.
Arguments error {A} _.

(** [{ count, error }] of a [select(all, { count: 'exact', head: true })]. *)
Record CountResponse := { count : option nat; count_error : option PgError }.

(** Fields of a [Partial<Profile>] passed to [update]. *)
Record ProfileUpdates := {
  upd_username : option string;
  upd_full_name : option (option string);
  upd_bio : option (option string);
  upd_avatar_url : option (option string);
}.

(** ** Requests: one constructor per query shape built in the sources *)

Inductive Request : Type → Type :=
  (** [supabase.auth.getUser()], read as [userData?.user?.id] *)
  | AuthGetUser : Request (option string)
  (** [from('profiles').select('*').eq('id', userId).single()] *)
  | SelectProfileById (userId : string) : Request (Response Profiles.row)
  (** [from('profiles').select('*').eq('username', username).single()] *)
  | SelectProfileByUsername (username : string) : Request (Response Profiles.row)
  (** [from('profiles').update(updates).eq('id', userId).select().single()] *)
  | UpdateProfile (userId : string) (updates : ProfileUpdates) : Request (Response Profiles.row)
  (** [storage.from(bucket).upload(filePath, file, { upsert })] *)
  | StorageUpload (bucket filePath : string) (upsert : bool) : Request (option PgError)
  (** [storage.from(bucket).getPublicUrl(filePath)], read as [data.publicUrl];
      the client library derives the URL itself, the call is kept in the log
      all the same *)
  | StorageGetPublicUrl (bucket filePath : string) : Request string
  (** [from('posts').select(posts+profile)
        .order('created_at', { ascending: false }).range(from, to)],
      with [.eq('user_id', userId)] when [user_id_eq] is given *)
  | SelectPostsPage (range_from range_to : Z) (user_id_eq : option string)
      : Request (Response (list Posts.row))
  (** [from('likes').select('post_id').in('post_id', postIds)] *)
  | SelectLikesIn (postIds : list string) : Request (Response (list PostIdRow))
  (** [from('comments').select('post_id').in('post_id', postIds)] *)
  | SelectCommentsIn (postIds : list string) : Request (Response (list PostIdRow))
  (** [from('likes').select('post_id').in('post_id', postIds).eq('user_id', u)] *)
  | SelectUserLikesIn (postIds : list string) (userId : string)
      : Request (Response (list PostIdRow))
  (** [from('posts').select(posts+profile).eq('id', postId).single()] *)
  | SelectPostById (postId : string) : Request (Response Posts.row)
  (** [from('likes').select(all, { count: 'exact', head: true }).eq('post_id', p)] *)
  | CountLikesOf (postId : string) : Request CountResponse
  (** [from('comments').select(all, { count: 'exact', head: true }).eq('post_id', p)] *)
  | CountCommentsOf (postId : string) : Request CountResponse
  (** [from('likes').select('id').eq('post_id', p).eq('user_id', u).single()] *)
  | SelectLikeId (postId userId : string) : Request (Response string)
  (** [from('posts').insert({ user_id, image_url, caption }).select(...).single()] *)
  | InsertPost (userId imageUrl : string) (caption : option string)
      : Request (Response Posts.row)
  (** [from('posts').delete().eq('id', postId)] *)
  | DeletePost (postId : string) : Request (Response unit)
  (** [from('likes').insert({ post_id, user_id })] *)
  | InsertLike (postId userId : string) : Request (Response unit)
  (** [from('likes').delete().eq('post_id', p).eq('user_id', u)] *)
  | DeleteLike (postId userId : string) : Request (Response unit)
  (** [from('comments').select(posts+profile).eq('post_id', p)
        .order('created_at', { ascending: true })] *)
  | SelectCommentsOf (postId : string) : Request (Response (list Comments.row))
  (** [from('comments').insert({ post_id, user_id, content }).select(...).single()] *)
  | InsertComment (postId userId content : string) : Request (Response Comments.row)
  (** [from('comments').delete().eq('id', commentId)] *)
  | DeleteComment (commentId : string) : Request (Response unit)
  (** [from('follows').insert({ follower_id, following_id })] *)
  | InsertFollow (followerId followingId : string) : Request (Response unit)
  (** [from('follows').delete().eq('follower_id', a).eq('following_id', b)] *)
  | DeleteFollow (followerId followingId : string) : Request (Response unit)
  (** [from('follows').select('id').eq('follower_id', a).eq('following_id', b).single()] *)
  | SelectFollowId (followerId followingId : string) : Request (Response string)
  (** [from('follows').select(all, { count, head }).eq('following_id', u)] *)
  | CountFollowers (userId : string) : Request CountResponse
  (** [from('follows').select(all, { count, head }).eq('follower_id', u)] *)
  | CountFollowing (userId : string) : Request CountResponse
  (** [from('posts').select(all, { count, head }).eq('user_id', u)] *)
  | CountPosts (userId : string) : Request CountResponse.

(** ** Asynchronous programs over requests *)

Inductive Prog (A : Type) : Type :=
  | Return (a : A)
  | Throw (e : PgError)
  | Await {X : Type} (r : Request X) (k : X → Prog A).
Arguments Return {A} a.
Arguments Throw {A} e.
Arguments Await {A X} r k.

Fixpoint bind {A B} (p : Prog A) (f : A → Prog B) : Prog B :=
  match p with
  | Return a => f a
  | Throw e => Throw e
  | Await r k => Await r (λ x, bind (k x) f)
  end.

Definition await {X} (r : Request X) : Prog X := Await r Return.

#[export] Instance Prog_ret : MRet Prog := λ A a, Return a.
#[export] Instance Prog_bind : MBind Prog := λ A B f p, bind p f.

(** What a settled promise holds. *)
Inductive Outcome (A : Type) : Type :=
  | Returned (a : A)
  | Thrown (e : PgError).
Arguments Returned {A} a.
Arguments Thrown {A} e.

(** One entry of the request log: the request and the platform's answer. *)
Inductive Event : Type :=
  | Ev {X : Type} (r : Request X) (x : X).

(** A platform answers every request, possibly changing its own state. *)
Definition Handler (S : Type) : Type := ∀ X, Request X → S → X * S.

Fixpoint run {S A} (h : Handler S) (p : Prog A) (s : S)
    : Outcome A * list Event * S :=
  match p with
  | Return a => (Returned a, [], s)
  | Throw e => (Thrown e, [], s)
  | Await r k =>
      let '(x, s1) := h _ r s in
      let '(o, t, s2) := run h (k x) s1 in
      (o, Ev r x :: t, s2)
  end.

(** ** JavaScript truthiness, where the sources branch on it *)

(** [if (userId)] on a [string | undefined]: the empty string is falsy. *)
Definition truthy (o : option string) : bool :=
  match o with
  | Some s => negb (String.eqb s EmptyString)
  | None => false
  end.

(** [x || d] where [x] is an array, an object or a count: [null] and
    [undefined] give [d]; a present value is kept (for a count, [0 || 0] is
    [0] as well). *)
Notation "x '|||' d" := (default d x) (at level 50, left associativity).

(** A browser [File], as far as the uploads look at it. *)
Record File := { name : string }.

(** [s.split('.').pop()]: what follows the last dot, or all of [s] when it
    has none. *)
Fixpoint split_pop_from (acc s : string) : string :=
  match s with
  | EmptyString => acc
  | String c s' =>
      if Ascii.eqb c "."%char then split_pop_from EmptyString s'
      else split_pop_from (acc +:+ String c EmptyString) s'
  end.
Definition split_pop (s : string) : string := split_pop_from EmptyString s.

(** ** The data-access layer ([lib/api]) *)

(** [const m = new Map(); rows.forEach(r => m.set(r.post_id,
    (m.get(r.post_id) || 0) + 1))] *)
Definition countMap (rows : list PostIdRow) : gmap string nat :=
  foldl (λ (m : gmap string nat) r,
           <[post_id r := ((m !! post_id r) ||| 0%nat) + 1]> m)%nat ∅ rows.

(** [userLikes.includes(post.id)] *)
Definition includes (l : list string) (x : string) : bool :=
  bool_decide (x ∈ l).

Module postsApi.

Definition getPosts (limit offset : Z) (userId : option string)
    : Prog (list Post) :=
  currentUserId ← await AuthGetUser;
  res ← await (SelectPostsPage offset (offset + limit - 1)
                 (if truthy userId then userId else None));
  match error res with
  | Some e => Throw e
  | None =>
    match data res with
    | None | Some [] => Return []
    | Some page =>
        let postIds := Posts.id <$> page in
        likesRes ← await (SelectLikesIn postIds);
        commentsRes ← await (SelectCommentsIn postIds);
        userLikes ←
          (if truthy currentUserId then
             userLikesRes ← await (SelectUserLikesIn postIds
                                     (currentUserId ||| EmptyString));
             Return (post_id <$> (data userLikesRes ||| []))
           else Return []);
        let likesCountMap := countMap (data likesRes ||| []) in
        let commentsCountMap := countMap (data commentsRes ||| []) in
        Return ((λ post, {|
          row := post;
          likes_count := (likesCountMap !! Posts.id post) ||| 0%nat;
          comments_count := (commentsCountMap !! Posts.id post) ||| 0%nat;
          is_liked := includes userLikes (Posts.id post);
        |}) <$> page)
    end
  end.

Definition getPost (postId : string) : Prog (Decorated (option Posts.row)) :=
  res ← await (SelectPostById postId);
  match error res with
  | Some e => Throw e
  | None =>
      currentUserId ← await AuthGetUser;
      likesRes ← await (CountLikesOf postId);
      commentsRes ← await (CountCommentsOf postId);
      isLiked ←
        (if truthy currentUserId then
           likeRes ← await (SelectLikeId postId (currentUserId ||| EmptyString));
           Return (bool_decide (is_Some (data likeRes)))
         else Return false);
      Return {|
        row := data res;
        likes_count := count likesRes ||| 0%nat;
        comments_count := count commentsRes ||| 0%nat;
        is_liked := isLiked;
      |}
  end.

Definition createPost (userId imageUrl : string) (caption : option string)
    : Prog (Decorated (option Posts.row)) :=
  res ← await (InsertPost userId imageUrl caption);
  match error res with
  | Some e => Throw e
  | None =>
      Return {| row := data res; likes_count := 0; comments_count := 0;
                is_liked := false |}
  end.

Definition deletePost (postId : string) : Prog unit :=
  res ← await (DeletePost postId);
  match error res with
  | Some e => Throw e
  | None => Return ()
  end.

(** [now] is the rendering of [Date.now()]. *)
Definition uploadPostImage (userId : string) (file : File) (now : string)
    : Prog string :=
  let fileExt := split_pop (name file) in
  let fileName := userId +:+ "-" +:+ now +:+ "." +:+ fileExt in
  let filePath := "posts/" +:+ fileName in
  uploadError ← await (StorageUpload "posts" filePath false);
  match uploadError with
  | Some e => Throw e
  | None => await (StorageGetPublicUrl "posts" filePath)
  end.

End postsApi.

Module profilesApi.


Definition getProfileByUsername (username : string)
    : Prog (option Profiles.row) :=
  res ← await (SelectProfileByUsername username);
  match error res with
  | Some e => Throw e
  | None => Return (data res)
  end.

Definition updateProfile (userId : string) (updates : ProfileUpdates)
    : Prog (option Profiles.row) :=
  res ← await (UpdateProfile userId updates);
  match error res with
  | Some e => Throw e
  | None => Return (data res)
  end.

(** [random] is the rendering of [Math.random()]. *)
Definition uploadAvatar (userId : string) (file : File) (random : string)
    : Prog string :=
  let fileExt := split_pop (name file) in
  let fileName := userId +:+ "-" +:+ random +:+ "." +:+ fileExt in
  let filePath := "avatars/" +:+ fileName in
  uploadError ← await (StorageUpload "avatars" filePath true);
  match uploadError with
  | Some e => Throw e
  | None => await (StorageGetPublicUrl "avatars" filePath)
  end.

End profilesApi.

(** The platform's code for a [.single()] that matched no row. *)
Definition PGRST116 : string := "PGRST116".

Module likesApi.

Definition likePost (postId userId : string) : Prog unit :=
  res ← await (InsertLike postId userId);
  match error res with
  | Some e => Throw e
  | None => Return ()
  end.

Definition unlikePost (postId userId : string) : Prog unit :=
  res ← await (DeleteLike postId userId);
  match error res with
  | Some e => Throw e
  | None => Return ()
  end.

Definition isLiked (postId userId : string) : Prog bool :=
  res ← await (SelectLikeId postId userId);
  match error res with
  | Some e =>
      if negb (String.eqb (code e) PGRST116) then Throw e
      else Return (bool_decide (is_Some (data res)))
  | None => Return (bool_decide (is_Some (data res)))
  end.

End likesApi.

Module commentsApi.

Definition getComments (postId : string) : Prog (option (list Comments.row)) :=
  res ← await (SelectCommentsOf postId);
  match error res with
  | Some e => Throw e
  | None => Return (data res)
  end.

Definition createComment (postId userId content : string)
    : Prog (option Comments.row) :=
  res ← await (InsertComment postId userId content);
  match error res with
  | Some e => Throw e
  | None => Return (data res)
  end.

Definition deleteComment (commentId : string) : Prog unit :=
  res ← await (DeleteComment commentId);
  match error res with
  | Some e => Throw e
  | None => Return ()
  end.

End commentsApi.

Module followsApi.

Definition followUser (followerId followingId : string) : Prog unit :=
  res ← await (InsertFollow followerId followingId);
  match error res with
  | Some e => Throw e
  | None => Return ()
  end.

Definition unfollowUser (followerId followingId : string) : Prog unit :=
  res ← await (DeleteFollow followerId followingId);
  match error res with
  | Some e => Throw e
  | None => Return ()
  end.

Definition isFollowing (followerId followingId : string) : Prog bool :=
  res ← await (SelectFollowId followerId followingId);
  match error res with
  | Some e =>
      if negb (String.eqb (code e) PGRST116) then Throw e
      else Return (bool_decide (is_Some (data res)))
  | None => Return (bool_decide (is_Some (data res)))
  end.

Definition getFollowersCount (userId : string) : Prog nat :=
  res ← await (CountFollowers userId);
  match count_error res with
  | Some e => Throw e
  | None => Return (count res ||| 0%nat)
  end.

Definition getFollowingCount (userId : string) : Prog nat :=
  res ← await (CountFollowing userId);
  match count_error res with
  | Some e => Throw e
  | None => Return (count res ||| 0%nat)
  end.

Definition getPostsCount (userId : string) : Prog nat :=
  res ← await (CountPosts userId);
  match count_error res with
  | Some e => Throw e
  | None => Return (count res ||| 0%nat)
  end.

End followsApi.

(** ** Reading the request log *)

Definition is_auth_call (e : Event) : bool :=
  match e with Ev r _ => match r with AuthGetUser => true | _ => false end end.
Definition is_posts_query (e : Event) : bool :=
  match e with Ev r _ => match r with SelectPostsPage _ _ _ => true | _ => false end end.
Definition is_likes_query (e : Event) : bool :=
  match e with Ev r _ => match r with SelectLikesIn _ => true | _ => false end end.
Definition is_comments_query (e : Event) : bool :=
  match e with Ev r _ => match r with SelectCommentsIn _ => true | _ => false end end.
Definition is_viewer_likes_query (e : Event) : bool :=
  match e with Ev r _ => match r with SelectUserLikesIn _ _ => true | _ => false end end.

(** How many entries of the log satisfy [f]. *)
Definition issued (f : Event → bool) (t : list Event) : nat :=
  length (List.filter f t).

(** The viewer the session lookup reported, if the log has the lookup. *)
Definition viewer_of (t : list Event) : option string :=
  head (t ≫= λ e,
    match e with
    | Ev r x =>
        match r in Request X return X → list (option string) with
        | AuthGetUser => λ u, [u]
        | _ => λ _, []
        end x
    end) ≫= λ u, u.

(** The platform's answer to the posts query, if the log has the query. *)
Definition posts_response (t : list Event)
    : option (Response (list Posts.row)) :=
  head (t ≫= λ e,
    match e with
    | Ev r x =>
        match r in Request X return X → list (Response (list Posts.row)) with
        | SelectPostsPage _ _ _ => λ res, [res]
        | _ => λ _, []
        end x
    end).

(** The post rows the posts query delivered. *)
Definition posts_fetched (t : list Event) : list Posts.row :=
  (posts_response t ≫= data) ||| [].

(** The like rows the batched likes query delivered. *)
Definition like_rows (t : list Event) : list PostIdRow :=
  t ≫= λ e,
    match e with
    | Ev r x =>
        match r in Request X return X → list PostIdRow with
        | SelectLikesIn _ => λ res, data res ||| []
        | _ => λ _, []
        end x
    end.

(** The comment rows the batched comments query delivered. *)
Definition comment_rows (t : list Event) : list PostIdRow :=
  t ≫= λ e,
    match e with
    | Ev r x =>
        match r in Request X return X → list PostIdRow with
        | SelectCommentsIn _ => λ res, data res ||| []
        | _ => λ _, []
        end x
    end.

(** The like rows of user [u] that a viewer-likes query delivered. *)
Definition viewer_like_rows (u : string) (t : list Event) : list PostIdRow :=
  t ≫= λ e,
    match e with
    | Ev r x =>
        match r in Request X return X → list PostIdRow with
        | SelectUserLikesIn _ u' =>
            λ res, if bool_decide (u' = u) then data res ||| [] else []
        | _ => λ _, []
        end x
    end.

(** A batched query of the feed asks about exactly the posts [ids], and a
    viewer-likes query about the likes of [viewer]. *)
Definition batched_over (ids : list string) (viewer : option string)
    (e : Event) : Prop :=
  match e with
  | Ev r _ =>
      match r with
      | SelectLikesIn ids' | SelectCommentsIn ids' => ids' = ids
      | SelectUserLikesIn ids' u => ids' = ids ∧ viewer = Some u
      | _ => True
      end
  end.

(** The rows of [rows] that belong to post [k]. *)
Definition rows_of (k : string) (rows : list PostIdRow) : list PostIdRow :=
  filter (λ r, post_id r = k) rows.

(** ** View components *)

(** The signed-in user of the session store ([useAuthStore().user]). *)
Module Auth.
Record User := { id : string }.
End Auth.

(** The rest of an [async] handler after its [await]: the promise it waits
    for, and what it does to the component's cells once the promise settles
    (the [catch] and [finally] blocks included). *)
Record Suspended (St : Type) := {
  awaiting : Prog unit;
  resume : Outcome unit → St → St;
}.
Arguments awaiting {St} _.
Arguments resume {St} _ _ _.

Module PostCard.

(** The [useState] cells.  [likesCount] is a JavaScript number that holds a
    count of rows; on counts its arithmetic is integer arithmetic. *)
Record State := {
  isLiked : bool;
  likesCount : Z;
  isLiking : bool;
  showComments : bool;
}.

Definition setIsLiked (b : bool) (st : State) : State :=
  {| isLiked := b; likesCount := likesCount st; isLiking := isLiking st;
     showComments := showComments st |}.
Definition setLikesCount (n : Z) (st : State) : State :=
  {| isLiked := isLiked st; likesCount := n; isLiking := isLiking st;
     showComments := showComments st |}.
Definition setIsLiking (b : bool) (st : State) : State :=
  {| isLiked := isLiked st; likesCount := likesCount st; isLiking := b;
     showComments := showComments st |}.

(** First render: [useState(post.is_liked || false)],
    [useState(post.likes_count || 0)], [useState(false)]. *)
Definition mount (post : Post) : State :=
  {| isLiked := is_liked post || false;
     likesCount := Z.of_nat (likes_count post);
     isLiking := false;
     showComments := false |}.

(** [handleLike], run on the cells of the current render.  The handler
    reads [isLiked], [likesCount] and [isLiking] from its closure and
    writes through the setters. *)
Definition handleLike (user : option Auth.User) (post : Post) (st : State)
    : State * option (Suspended State) :=
  match user with
  | None => (st, None)
  | Some user =>
      if isLiking st then (st, None)
      else
        let st1 := setIsLiking true st in
        let previousLiked := isLiked st in
        let previousCount := likesCount st in
        let st2 := setIsLiked (negb (isLiked st)) st1 in
        let st3 :=
          setLikesCount
            (if isLiked st then likesCount st - 1 else likesCount st + 1)
            st2 in
        (st3,
         Some {|
           awaiting :=
             if previousLiked then
               likesApi.unlikePost (Posts.id (row post)) (Auth.id user)
             else
               likesApi.likePost (Posts.id (row post)) (Auth.id user);
           resume := λ settled cur,
             let cur1 :=
               match settled with
               | Returned _ => cur
               | Thrown _ =>
                   setLikesCount previousCount (setIsLiked previousLiked cur)
               end in
             setIsLiking false cur1;
         |})
  end.

(** *** The control at run time

    Events reach the component one at a time: a click on the like button
    (the session user is read at that moment), or the settling of one of
    the promises the component waits for.  React renders between two
    events, so a handler reads the cells as the handlers before it left
    them.  The platform answers the request of a promise when it
    settles. *)
Record Control (S : Type) := {
  cells : State;
  inflight : list (Suspended State);
  platform : S;
}.
Arguments cells {S} _.
Arguments inflight {S} _.
Arguments platform {S} _.

Inductive UiEvent :=
  | Click (user : option Auth.User)
  | Settle (i : nat).

Definition step {S} (h : Handler S) (post : Post)
    (c : Control S) (ev : UiEvent) : Control S :=
  match ev with
  | Click user =>
      let '(st, k) := handleLike user post (cells c) in
      {| cells := st;
         inflight := inflight c ++ option_list k;
         platform := platform c |}
  | Settle i =>
      match inflight c !! i with
      | None => c
      | Some k =>
          let '(settled, _, s') := run h (awaiting k) (platform c) in
          {| cells := resume k settled (cells c);
             inflight := delete i (inflight c);
             platform := s' |}
      end
  end.

Definition start {S} (post : Post) (s : S) : Control S :=
  {| cells := mount post; inflight := []; platform := s |}.

(** The state of a control that handles one toggle at a time: nothing in
    flight and the guard flag down, or one promise in flight, the flag up,
    and a continuation that lowers it. *)
Definition one_at_a_time {S} (c : Control S) : Prop :=
  (inflight c = [] ∧ isLiking (cells c) = false)
  ∨ (∃ k, inflight c = [k] ∧ isLiking (cells c) = true
          ∧ ∀ settled cur, isLiking (resume k settled cur) = false).

End PostCard.

Module Profile.

(** The cells of [Profile] that [handleFollow] reads or writes. *)
Record State := {
  profile : option Profiles.row;
  followersCount : Z;
  isFollowing : bool;
}.

Definition setIsFollowing (b : bool) (st : State) : State :=
  {| profile := profile st; followersCount := followersCount st;
     isFollowing := b |}.
Definition setFollowersCount (n : Z) (st : State) : State :=
  {| profile := profile st; followersCount := n;
     isFollowing := isFollowing st |}.

(** What the component takes from the router and the session store. *)
Record Env := {
  username : option string;
  user : option Auth.User;
  currentProfile : option Profiles.row;
}.

(** [currentProfile?.username === username || profile?.id === user?.id] *)
Definition isOwnProfile (env : Env) (st : State) : bool :=
  bool_decide (Profiles.username <$> currentProfile env = username env)
  || bool_decide (Profiles.id <$> profile st = Auth.id <$> user env).

Definition handleFollow (env : Env) (st : State)
    : State * option (Suspended State) :=
  match user env, profile st with
  | Some user, Some profile =>
      if isOwnProfile env st then (st, None)
      else
        let previousFollowing := isFollowing st in
        let previousCount := followersCount st in
        let st1 := setIsFollowing (negb (isFollowing st)) st in
        let st2 :=
          setFollowersCount
            (if isFollowing st then followersCount st - 1
             else followersCount st + 1)
            st1 in
        (st2,
         Some {|
           awaiting :=
             if previousFollowing then
               followsApi.unfollowUser (Auth.id user) (Profiles.id profile)
             else
               followsApi.followUser (Auth.id user) (Profiles.id profile);
           resume := λ settled cur,
             match settled with
             | Returned _ => cur
             | Thrown _ =>
                 setFollowersCount previousCount
                   (setIsFollowing previousFollowing cur)
             end;
         |})
  | _, _ => (st, None)
  end.

(** The requests a click on the follow button sends to platform [h]. *)
Definition follow_click {S} (h : Handler S) (env : Env) (st : State) (s : S)
    : State * list Event * S :=
  match handleFollow env st with
  | (st', None) => (st', [], s)
  | (st', Some k) =>
      let '(settled, t, s') := run h (awaiting k) s in
      (resume k settled st', t, s')
  end.

End Profile.

Module CommentsDialog.

(** [comments] holds whatever [setComments] was given; the data-access
    layer hands over the response's [data], which the platform leaves
    [null] only together with an error. *)
Record State := {
  comments : option (list Comments.row);
  newComment : string;
  loading : bool;
  submitting : bool;
}.

Definition mount : State :=
  {| comments := Some []; newComment := EmptyString; loading := false;
     submitting := false |}.

Definition setComments (cs : option (list Comments.row)) (st : State) : State :=
  {| comments := cs; newComment := newComment st; loading := loading st;
     submitting := submitting st |}.
Definition setLoading (b : bool) (st : State) : State :=
  {| comments := comments st; newComment := newComment st; loading := b;
     submitting := submitting st |}.

(** The rest of [loadComments] carries a value, so it has its own
    record. *)
Record Loading := {
  fetching : Prog (option (list Comments.row));
  loaded : Outcome (option (list Comments.row)) → State → State;
}.

Definition loadComments (postId : string) (st : State) : State * Loading :=
  (setLoading true st,
   {| fetching := commentsApi.getComments postId;
      loaded := λ settled cur,
        let cur1 :=
          match settled with
          | Returned data => setComments data cur
          | Thrown _ => cur
          end in
        setLoading false cur1 |}).

(** One entry of the rendered thread. *)
Record Entry := {
  key : string;
  author : option string;
  text : string;
  posted : timestamptz;
  deletable : bool;
}.

Inductive View :=
  | Skeletons
  | NoCommentsYet
  | Thread (entries : list Entry)
  | TypeError.

Definition entry (user : option Auth.User) (comment : Comments.row) : Entry :=
  {| key := Comments.id comment;
     author := Profiles.username <$> Comments.profile comment;
     text := Comments.content comment;
     posted := Comments.created_at comment;
     deletable :=
       bool_decide (Auth.id <$> user = Some (Comments.user_id comment)) |}.

(** The comments list of the dialog's render. *)
Definition render (user : option Auth.User) (st : State) : View :=
  if loading st then Skeletons
  else
    match comments st with
    | None => TypeError
    | Some [] => NoCommentsYet
    | Some comments => Thread (entry user <$> comments)
    end.

(** The texts of the rendered thread, top to bottom. *)
Definition texts (v : View) : list string :=
  match v with
  | Thread entries => text <$> entries
  | _ => []
  end.

(** The dialog opens ([useEffect] calls [loadComments]), the request is
    answered by platform [h], and the dialog renders. *)
Definition open_and_render {S} (h : Handler S) (user : option Auth.User)
    (postId : string) (s : S) : View :=
  let '(st, k) := loadComments postId mount in
  let '(settled, _, _) := run h (fetching k) s in
  render user (loaded k settled st).

End CommentsDialog.

(** ** The platform, as [supabase/schema.sql] and the row-level policies
    define it

    A reachable platform: every request is answered from the tables.  (What
    the client does when a request fails on the way is covered by running
    the programs against an arbitrary [Handler].) *)

Module Supabase.

Record Store := {
  profiles : list Profiles.row;
  posts : list Posts.row;
  likes : list Likes.row;
  comments : list Comments.row;
  follows : list Follows.row;
}.

(** [auth_uid] is the policies' [auth.uid()]; [uuid_seq] feeds
    [uuid_generate_v4()]. *)
Record World := {
  db : Store;
  auth_uid : option string;
  uuid_seq : N;
}.

Definition uuid (n : N) : string := "uuid-" +:+ pretty n.

Definition set_likes (ls : list Likes.row) (w : World) : World :=
  {| db := {| profiles := profiles (db w); posts := posts (db w);
              likes := ls; comments := comments (db w);
              follows := follows (db w) |};
     auth_uid := auth_uid w; uuid_seq := uuid_seq w |}.
Definition set_follows (fs : list Follows.row) (w : World) : World :=
  {| db := {| profiles := profiles (db w); posts := posts (db w);
              likes := likes (db w); comments := comments (db w);
              follows := fs |};
     auth_uid := auth_uid w; uuid_seq := uuid_seq w |}.
Definition next_uuid (w : World) : World :=
  {| db := db w; auth_uid := auth_uid w; uuid_seq := N.succ (uuid_seq w) |}.

(** Postgres error classes the schema can raise. *)
Definition rls_violation : PgError :=
  {| code := "42501"; message := "new row violates row-level security policy" |}.
Definition check_violation : PgError :=
  {| code := "23514"; message := "new row violates check constraint" |}.
Definition unique_violation : PgError :=
  {| code := "23505"; message := "duplicate key value violates unique constraint" |}.
Definition foreign_key_violation : PgError :=
  {| code := "23503"; message := "insert violates foreign key constraint" |}.
Definition no_single_row : PgError :=
  {| code := PGRST116; message := "JSON object requested, multiple (or no) rows returned" |}.

Definition ok {A} (a : A) : Response A := {| data := Some a; error := None |}.
Definition no_content : Response unit := {| data := None; error := None |}.
Definition failed {A} (e : PgError) : Response A :=
  {| data := None; error := Some e |}.

(** [.single()] *)
Definition single {A} (rows : list A) : Response A :=
  match rows with
  | [r] => ok r
  | _ => failed no_single_row
  end.

Definition has_profile (w : World) (u : string) : bool :=
  bool_decide (u ∈ Profiles.id <$> profiles (db w)).
Definition has_post (w : World) (p : string) : bool :=
  bool_decide (p ∈ Posts.id <$> posts (db w)).

(** [profile:profiles[*]]: the row of the referenced profile. *)
Definition profile_of (w : World) (u : string) : option Profiles.row :=
  snd <$> list_find (λ p, Profiles.id p = u) (profiles (db w)).

Definition with_post_profile (w : World) (p : Posts.row) : Posts.row :=
  {| Posts.id := Posts.id p; Posts.user_id := Posts.user_id p;
     Posts.image_url := Posts.image_url p; Posts.caption := Posts.caption p;
     Posts.created_at := Posts.created_at p;
     Posts.profile := profile_of w (Posts.user_id p) |}.
Definition with_comment_profile (w : World) (c : Comments.row) : Comments.row :=
  {| Comments.id := Comments.id c; Comments.post_id := Comments.post_id c;
     Comments.user_id := Comments.user_id c;
     Comments.content := Comments.content c;
     Comments.created_at := Comments.created_at c;
     Comments.profile := profile_of w (Comments.user_id c) |}.

(** [ORDER BY created_at ASC] and [DESC]. *)
Definition comment_older (a b : Comments.row) : Prop :=
  Comments.created_at a ≤ Comments.created_at b.
Definition post_newer (a b : Posts.row) : Prop :=
  Posts.created_at b ≤ Posts.created_at a.
#[export] Instance comment_older_dec : RelDecision comment_older :=
  λ a b, decide (Comments.created_at a ≤ Comments.created_at b).
#[export] Instance post_newer_dec : RelDecision post_newer :=
  λ a b, decide (Posts.created_at b ≤ Posts.created_at a).

#[export] Instance comment_older_trans : Transitive comment_older.
Proof. intros a b c. unfold comment_older. lia. Qed.
#[export] Instance comment_older_total : Total comment_older.
Proof. intros a b. unfold comment_older. lia. Qed.

(** [.range(from, to)]: the rows at positions [from] to [to], both
    included. *)
Definition range {A} (from to : Z) (rows : list A) : list A :=
  take (Z.to_nat (to - from + 1)) (drop (Z.to_nat from) rows).

Definition select_posts_page (w : World) (from to : Z)
    (user_id_eq : option string) : list Posts.row :=
  let rows :=
    match user_id_eq with
    | Some u => filter (λ p, Posts.user_id p = u) (posts (db w))
    | None => posts (db w)
    end in
  with_post_profile w <$> range from to (merge_sort post_newer rows).

Definition select_likes_in (w : World) (postIds : list string)
    : list PostIdRow :=
  (λ l, {| post_id := Likes.post_id l |})
    <$> filter (λ l, Likes.post_id l ∈ postIds) (likes (db w)).

Definition select_comments_in (w : World) (postIds : list string)
    : list PostIdRow :=
  (λ c, {| post_id := Comments.post_id c |})
    <$> filter (λ c, Comments.post_id c ∈ postIds) (comments (db w)).

Definition select_user_likes_in (w : World) (postIds : list string)
    (u : string) : list PostIdRow :=
  (λ l, {| post_id := Likes.post_id l |})
    <$> filter (λ l, Likes.post_id l ∈ postIds ∧ Likes.user_id l = u)
          (likes (db w)).

Definition select_comments_of (w : World) (postId : string)
    : list Comments.row :=
  merge_sort comment_older
    (with_comment_profile w
       <$> filter (λ c, Comments.post_id c = postId) (comments (db w))).

Definition like_matches (postId userId : string) (l : Likes.row) : Prop :=
  Likes.post_id l = postId ∧ Likes.user_id l = userId.
Definition follow_matches (a b : string) (f : Follows.row) : Prop :=
  Follows.follower_id f = a ∧ Follows.following_id f = b.
#[export] Instance like_matches_dec p u l : Decision (like_matches p u l).
Proof. unfold like_matches. apply _. Defined.
#[export] Instance follow_matches_dec a b f : Decision (follow_matches a b f).
Proof. unfold follow_matches. apply _. Defined.

(** [INSERT INTO likes]: the insert policy ([auth.uid() = user_id]), the
    [UNIQUE(post_id, user_id)] index, then the foreign keys. *)
Definition insert_like (postId userId : string) (w : World)
    : Response unit * World :=
  if negb (bool_decide (auth_uid w = Some userId)) then (failed rls_violation, w)
  else if bool_decide (Exists (like_matches postId userId) (likes (db w)))
  then (failed unique_violation, w)
  else if negb (has_post w postId && has_profile w userId)
  then (failed foreign_key_violation, w)
  else
    (no_content,
     next_uuid
       (set_likes
          (likes (db w)
             ++ [ {| Likes.id := uuid (uuid_seq w); Likes.post_id := postId;
                     Likes.user_id := userId |} ])
          w)).

(** [DELETE FROM likes WHERE post_id = p AND user_id = u], over the rows
    the delete policy ([auth.uid() = user_id]) lets the caller see. *)
Definition delete_like (postId userId : string) (w : World)
    : Response unit * World :=
  (no_content,
   set_likes
     (filter (λ l, ¬ (like_matches postId userId l
                      ∧ auth_uid w = Some (Likes.user_id l)))
        (likes (db w)))
     w).

(** [INSERT INTO follows]: the insert policy ([auth.uid() = follower_id]),
    [CHECK (follower_id != following_id)], the
    [UNIQUE(follower_id, following_id)] index, then the foreign keys. *)
Definition insert_follow (followerId followingId : string) (w : World)
    : Response unit * World :=
  if negb (bool_decide (auth_uid w = Some followerId))
  then (failed rls_violation, w)
  else if bool_decide (followerId = followingId)
  then (failed check_violation, w)
  else if bool_decide (Exists (follow_matches followerId followingId)
                         (follows (db w)))
  then (failed unique_violation, w)
  else if negb (has_profile w followerId && has_profile w followingId)
  then (failed foreign_key_violation, w)
  else
    (no_content,
     next_uuid
       (set_follows
          (follows (db w)
             ++ [ {| Follows.id := uuid (uuid_seq w);
                     Follows.follower_id := followerId;
                     Follows.following_id := followingId |} ])
          w)).

(** [DELETE FROM follows WHERE follower_id = a AND following_id = b], over
    the rows the delete policy ([auth.uid() = follower_id]) lets the
    caller see. *)
Definition delete_follow (followerId followingId : string) (w : World)
    : Response unit * World :=
  (no_content,
   set_follows
     (filter (λ f, ¬ (follow_matches followerId followingId f
                      ∧ auth_uid w = Some (Follows.follower_id f)))
        (follows (db w)))
     w).

(** The platform.  Requests on the likes, comments and follows tables and
    the feed's page query are answered from the tables; [other] answers
    the rest and leaves the tables alone. *)
Definition supabase (other : ∀ X, Request X → X) : Handler World :=
  λ X r,
    match r in Request X return World → X * World with
    | AuthGetUser => λ w, (auth_uid w, w)
    | SelectPostsPage from to u => λ w, (ok (select_posts_page w from to u), w)
    | SelectLikesIn ids => λ w, (ok (select_likes_in w ids), w)
    | SelectCommentsIn ids => λ w, (ok (select_comments_in w ids), w)
    | SelectUserLikesIn ids u => λ w, (ok (select_user_likes_in w ids u), w)
    | SelectLikeId p u =>
        λ w, (single (Likes.id <$> filter (like_matches p u) (likes (db w))), w)
    | InsertLike p u => insert_like p u
    | DeleteLike p u => delete_like p u
    | SelectCommentsOf p => λ w, (ok (select_comments_of w p), w)
    | InsertFollow a b => insert_follow a b
    | DeleteFollow a b => delete_follow a b
    | SelectFollowId a b =>
        λ w, (single (Follows.id <$> filter (follow_matches a b) (follows (db w))), w)
    | r' => λ w, (other _ r', w)
    end.

(** No row of the follows table relates a user to themselves. *)
Definition no_self_follow (w : World) : Prop :=
  Forall (λ f, Follows.follower_id f ≠ Follows.following_id f) (follows (db w)).

End Supabase.

(** A platform that rejects every request with error [e].  The session
    lookup then knows no user, and a public URL is still derived (it needs no
    round trip). *)
Definition rejecting (e : PgError) : ∀ X, Request X → X :=
  λ X r,
    match r in Request X return X with
    | AuthGetUser => None
    | StorageUpload _ _ _ => Some e
    | StorageGetPublicUrl bucket filePath => bucket +:+ "/" +:+ filePath
    | CountLikesOf _ | CountCommentsOf _ | CountFollowers _
    | CountFollowing _ | CountPosts _ =>
        {| count := None; count_error := Some e |}
    | _ => {| data := None; error := Some e |}
    end.

(** Response [x] to request [r] reports error [e], where responses to [r]
    can report one. *)
Definition answers_error (e : PgError) {X} (r : Request X) : X → Prop :=
  match r in Request X return X → Prop with
  | AuthGetUser => λ _, True
  | StorageUpload _ _ _ => λ uploadError, uploadError = Some e
  | StorageGetPublicUrl _ _ => λ _, True
  | CountLikesOf _ | CountCommentsOf _ | CountFollowers _
  | CountFollowing _ | CountPosts _ => λ res, count_error res = Some e
  | _ => λ res, error res = Some e
  end.

(** Platform [h] rejects every request with error [e]. *)
Definition rejects {S} (h : Handler S) (e : PgError) : Prop :=
  ∀ X (r : Request X) (s : S), answers_error e r (h X r s).1.

(** A platform without state of its own. *)
Definition stateless (f : ∀ X, Request X → X) : Handler unit :=
  λ X r s, (f X r, s).

(** ** The operations of the data-access layer, as a type *)

Inductive ApiFunction :=
  | GetProfile | GetProfileByUsername | UpdateProfileFn | UploadAvatar
  | GetPosts | GetPost | CreatePost | DeletePostFn | UploadPostImage
  | LikePost | UnlikePost | IsLiked
  | GetComments | CreateComment | DeleteCommentFn
  | FollowUser | UnfollowUser | IsFollowing
  | GetFollowersCount | GetFollowingCount | GetPostsCount.

#[export] Instance ApiFunction_eq_dec : EqDecision ApiFunction.
Proof. solve_decision. Defined.



(** Runs a program for its effect and its success or failure only. *)
Definition void {A} (p : Prog A) : Prog unit := _ ← p; Return ().








(** A follow request of a user towards themselves. *)
Definition is_self_follow_request (e : Event) : bool :=
  match e with
  | Ev r _ =>
      match r with
      | InsertFollow a b => bool_decide (a = b)
      | _ => false
      end
  end.

(** ** Sample data *)

Module Sample.
Import Supabase.

Definition alice : Profiles.row :=
  {| Profiles.id := "u-alice"; Profiles.username := "alice";
     Profiles.full_name := Some "Alice A"; Profiles.bio := None;
     Profiles.avatar_url := None |}.
Definition bob : Profiles.row :=
  {| Profiles.id := "u-bob"; Profiles.username := "bob";
     Profiles.full_name := None; Profiles.bio := None;
     Profiles.avatar_url := None |}.

Definition post1 : Posts.row :=
  {| Posts.id := "p-1"; Posts.user_id := "u-alice";
     Posts.image_url := "https://cdn.example/1.png";
     Posts.caption := Some "first"; Posts.created_at := 10;
     Posts.profile := None |}.
Definition post2 : Posts.row :=
  {| Posts.id := "p-2"; Posts.user_id := "u-bob";
     Posts.image_url := "https://cdn.example/2.png";
     Posts.caption := None; Posts.created_at := 20;
     Posts.profile := None |}.

Definition comment (i who what : string) (t : Z) : Comments.row :=
  {| Comments.id := i; Comments.post_id := "p-1"; Comments.user_id := who;
     Comments.content := what; Comments.created_at := t;
     Comments.profile := None |}.
Definition commentA := comment "c-A" "u-bob" "A" 1.
Definition commentB := comment "c-B" "u-alice" "B" 2.
Definition commentC := comment "c-C" "u-bob" "C" 3.
Definition other_comment : Comments.row :=
  {| Comments.id := "c-X"; Comments.post_id := "p-2";
     Comments.user_id := "u-alice"; Comments.content := "X";
     Comments.created_at := 0; Comments.profile := None |}.

Definition like (i p u : string) : Likes.row :=
  {| Likes.id := i; Likes.post_id := p; Likes.user_id := u |}.

(** A world in which [viewer] is signed in and the comments table holds
    [stored] in that physical order. *)
Definition world (viewer : option string) (stored : list Comments.row)
    : World :=
  {| db := {| profiles := [alice; bob];
              posts := [post1; post2];
              likes := [like "l-1" "p-2" "u-alice"; like "l-2" "p-2" "u-bob";
                        like "l-3" "p-1" "u-bob"];
              comments := stored;
              follows := [] |};
     auth_uid := viewer;
     uuid_seq := 100 |}.

Definition offline : PgError :=
  {| code := "ECONNREFUSED"; message := "fetch failed" |}.

Definition platform : Handler World := supabase (rejecting offline).

Definition home (viewer : option string) : World :=
  world viewer [commentC; other_comment; commentA; commentB].

Definition feed (viewer : option string) : list Post :=
  match (run platform (postsApi.getPosts 10 0 None) (home viewer)).1.1
  with
  | Returned posts => posts
  | Thrown _ => []
  end.

Definition signed_in : Auth.User := {| Auth.id := "u-alice" |}.

(** The post of Bob as the feed shows it to a viewer who has not liked
    it. *)
Definition card : Post :=
  {| row := post2; likes_count := 1; comments_count := 1;
     is_liked := false |}.

(** Alice looks at her own profile page. *)
Definition own_page : Profile.Env :=
  {| Profile.username := Some "alice";
     Profile.user := Some signed_in;
     Profile.currentProfile := Some alice |}.
Definition own_page_cells : Profile.State :=
  {| Profile.profile := Some alice; Profile.followersCount := 0;
     Profile.isFollowing := false |}.

End Sample.

(** ** More of the client: what the handlers do besides setting cells *)

(** What a handler does to the world around its component. *)
Inductive Effect :=
  (** [console.error(label, error)] *)
  | ConsoleError (label : string)
  (** [alert(message)] *)
  | Alert (message : string)
  (** [navigate(to)] *)
  | Navigate (to : string)
  (** [window.dispatchEvent(new CustomEvent(name))] *)
  | DispatchEvent (name : string)
  (** [navigate(to, { replace: true })] *)
  | NavigateReplace (to : string)
  (** a callback prop is called, as in [onDelete()] *)
  | Callback (name : string).

#[export] Instance Effect_eq_dec : EqDecision Effect.
Proof. solve_decision. Defined.

(** The rest of an [async] handler after its [await], for handlers whose
    awaited promise carries a value or whose [catch] and [finally] blocks
    have effects. *)
Record Pending (St A : Type) := {
  request : Prog A;
  settle : Outcome A → St → St * list Effect;
}.
Arguments request {St A} _.
Arguments settle {St A} _ _ _.

(** The promise of [p] settles against platform [h]; the rest of the handler
    runs on cells [st]. *)
Definition settle_on {S St A} (h : Handler S) (p : Pending St A) (st : St)
    (s : S) : St * list Effect * list Event * S :=
  let '(settled, t, s') := run h (request p) s in
  let '(st', effects) := settle p settled st in
  (st', effects, t, s').

(** ** Invariants of the tables *)

Module Tables.
Import Supabase.

(** [UNIQUE(post_id, user_id)] on likes. *)
Definition likes_unique (w : World) : Prop :=
  NoDup ((λ l, (Likes.post_id l, Likes.user_id l)) <$> likes (db w)).

(** [UNIQUE(follower_id, following_id)] on follows. *)
Definition follows_unique (w : World) : Prop :=
  NoDup ((λ f, (Follows.follower_id f, Follows.following_id f))
           <$> follows (db w)).

(** The constraints of the likes and follows tables together. *)
Definition consistent (w : World) : Prop :=
  likes_unique w ∧ follows_unique w ∧ no_self_follow w.

(** The posts table in the order of the feed, [ORDER BY created_at DESC]. *)
Definition newest_first (w : World) : list Posts.row :=
  merge_sort post_newer (posts (db w)).

#[export] Instance post_newer_trans : Transitive post_newer.
Proof. intros a b c. unfold post_newer. lia. Qed.
#[export] Instance post_newer_total : Total post_newer.
Proof. intros a b. unfold post_newer. lia. Qed.

End Tables.

(** ** [PostCard]: the delete entry of the menu *)

Module PostCardActions.

(** [user?.id === post.user_id] *)
Definition isOwnPost (user : option Auth.User) (post : Post) : bool :=
  bool_decide (Auth.id <$> user = Some (Posts.user_id (row post))).

(** [handleDelete].  [onDelete] tells whether the prop was passed;
    [confirmed] is the answer of [confirm(...)], asked only past the first
    guard.  The handler sets no cell. *)
Definition handleDelete (user : option Auth.User) (post : Post)
    (onDelete confirmed : bool) : option (Pending unit unit) :=
  if negb (isOwnPost user post) || negb onDelete then None
  else if negb confirmed then None
  else
    Some {|
      request := postsApi.deletePost (Posts.id (row post));
      settle := λ settled cur,
        match settled with
        | Returned _ => (cur, [Callback "onDelete"])
        | Thrown _ =>
            (cur, [ConsoleError "Error deleting post:";
                   Alert "Failed to delete post"])
        end;
    |}.

(** A click on "Delete", followed to its end on platform [h]. *)
Definition delete_click {S} (h : Handler S) (user : option Auth.User)
    (post : Post) (onDelete confirmed : bool) (s : S)
    : list Effect * list Event * S :=
  match handleDelete user post onDelete confirmed with
  | None => ([], [], s)
  | Some p =>
      let '(_, effects, t, s') := settle_on h p () s in (effects, t, s')
  end.

End PostCardActions.

(** ** [Feed] *)

Module Feed.

Record State := {
  posts : list Post;
  loading : bool;
  hasMore : bool;
  page : Z;
}.

Definition setPosts (ps : list Post) (st : State) : State :=
  {| posts := ps; loading := loading st; hasMore := hasMore st;
     page := page st |}.
Definition setLoading (b : bool) (st : State) : State :=
  {| posts := posts st; loading := b; hasMore := hasMore st;
     page := page st |}.
Definition setHasMore (b : bool) (st : State) : State :=
  {| posts := posts st; loading := loading st; hasMore := b;
     page := page st |}.
Definition setPage (n : Z) (st : State) : State :=
  {| posts := posts st; loading := loading st; hasMore := hasMore st;
     page := n |}.

Definition postsPerPage : Z := 10.

Definition mount : State :=
  {| posts := []; loading := true; hasMore := true; page := 0 |}.

(** [loadPosts(pageNum, reset)]; the append is the functional update
    [setPosts((prev) => [...prev, ...newPosts])]. *)
Definition loadPosts (pageNum : Z) (reset : bool)
    : Pending State (list Post) :=
  {| request :=
       postsApi.getPosts postsPerPage (pageNum * postsPerPage) None;
     settle := λ settled cur,
       let '(cur1, effects) :=
         match settled with
         | Returned newPosts =>
             let cur' :=
               if reset then setPosts newPosts cur
               else setPosts (posts cur ++ newPosts) cur in
             (setHasMore
                (bool_decide (Z.of_nat (length newPosts) = postsPerPage))
                cur',
              [])
         | Thrown _ =>
             (setHasMore false cur, [ConsoleError "Error loading posts:"])
         end in
       (setLoading false cur1, effects) |}.

(** [fetchMorePosts], the [next] of the infinite scroll. *)
Definition fetchMorePosts (st : State) : State * Pending State (list Post) :=
  let nextPage := page st + 1 in
  (setPage nextPage st, loadPosts nextPage false).

(** [handlePostDelete], and the listener of the comment events. *)
Definition handlePostDelete : Pending State (list Post) := loadPosts 0 true.

Inductive View :=
  | Skeletons
  | NoPostsYet
  | Cards (shown : list Post) (more : bool).

(** The three returns of the component: skeletons while the first page
    loads, the empty notice, or the cards in the infinite scroll. *)
Definition render (st : State) : View :=
  match posts st with
  | [] => if loading st then Skeletons else NoPostsYet
  | shown => Cards shown (hasMore st)
  end.

(** A load runs to its end on platform [h]. *)
Definition finish {S} (h : Handler S) (p : Pending State (list Post))
    (c : State * S) : State * S :=
  let '(st', _, _, s') := settle_on h p c.1 c.2 in (st', s').

(** The page opens: the effect of the first render loads page 0. *)
Definition open {S} (h : Handler S) (s : S) : State * S :=
  finish h (loadPosts 0 true) (mount, s).

(** The user reaches the end of the list once: [fetchMorePosts], and its
    load runs to its end. *)
Definition scroll_once {S} (h : Handler S) (c : State * S) : State * S :=
  let '(st1, p) := fetchMorePosts c.1 in finish h p (st1, c.2).

(** The page opens and the user reaches the end of the list [n] times. *)
Definition scroll {S} (h : Handler S) (s : S) (n : nat) : State * S :=
  Nat.iter n (scroll_once h) (open h s).

End Feed.

(** ** [CommentsDialog]: writing and deleting comments *)

Module CommentsDialogActions.
Import CommentsDialog.

Definition setNewComment (text : string) (st : State) : State :=
  {| comments := comments st; newComment := text; loading := loading st;
     submitting := submitting st |}.
Definition setSubmitting (b : bool) (st : State) : State :=
  {| comments := comments st; newComment := newComment st;
     loading := loading st; submitting := b |}.

(** [[...prev, newCommentData]].  [None] stands for a list the dialog cannot
    render: [null], or a list that holds [null]. *)
Definition appended (prev : option (list Comments.row))
    (newCommentData : option Comments.row) : option (list Comments.row) :=
  match prev, newCommentData with
  | Some prev, Some c => Some (prev ++ [c])
  | _, _ => None
  end.

(** [prev.filter((c) => c.id !== commentId)] *)
Definition without (commentId : string) (prev : option (list Comments.row))
    : option (list Comments.row) :=
  filter (λ c, Comments.id c ≠ commentId) <$> prev.

(** [handleSubmit]; [trim] is [String.prototype.trim]. *)
Definition handleSubmit (trim : string → string) (user : option Auth.User)
    (postId : string) (st : State)
    : State * option (Pending State (option Comments.row)) :=
  match user with
  | None => (st, None)
  | Some user =>
      if String.eqb (trim (newComment st)) EmptyString || submitting st
      then (st, None)
      else
        let st1 := setSubmitting true st in
        let commentText := trim (newComment st) in
        let st2 := setNewComment EmptyString st1 in
        (st2,
         Some {|
           request :=
             commentsApi.createComment postId (Auth.id user) commentText;
           settle := λ settled cur,
             let '(cur1, effects) :=
               match settled with
               | Returned newCommentData =>
                   (setComments (appended (comments cur) newCommentData) cur,
                    [DispatchEvent "comment-added"])
               | Thrown _ =>
                   (setNewComment commentText cur,
                    [ConsoleError "Error creating comment:";
                     Alert "Failed to post comment"])
               end in
             (setSubmitting false cur1, effects);
         |})
  end.

(** [handleDelete]; [confirmed] is the answer of [confirm(...)]. *)
Definition handleDelete (commentId : string) (confirmed : bool)
    : option (Pending State unit) :=
  if negb confirmed then None
  else
    Some {|
      request := commentsApi.deleteComment commentId;
      settle := λ settled cur,
        match settled with
        | Returned _ =>
            (setComments (without commentId (comments cur)) cur,
             [DispatchEvent "comment-deleted"])
        | Thrown _ =>
            (cur, [ConsoleError "Error deleting comment:";
                   Alert "Failed to delete comment"])
        end;
    |}.

(** The form at run time: submissions and settlements in any order. *)
Record Form (S : Type) := {
  cells : State;
  inflight : list (Pending State (option Comments.row));
  platform : S;
}.
Arguments cells {S} _.
Arguments inflight {S} _.
Arguments platform {S} _.

Inductive FormEvent :=
  | Edit (text : string)
  | Submit (user : option Auth.User)
  | Settle (i : nat).

Definition step {S} (trim : string → string) (h : Handler S)
    (postId : string) (f : Form S) (ev : FormEvent) : Form S :=
  match ev with
  | Edit text =>
      {| cells := setNewComment text (cells f); inflight := inflight f;
         platform := platform f |}
  | Submit user =>
      let '(st, p) := handleSubmit trim user postId (cells f) in
      {| cells := st; inflight := inflight f ++ option_list p;
         platform := platform f |}
  | Settle i =>
      match inflight f !! i with
      | None => f
      | Some p =>
          let '(st', _, _, s') := settle_on h p (cells f) (platform f) in
          {| cells := st'; inflight := delete i (inflight f);
             platform := s' |}
      end
  end.

Definition start {S} (s : S) : Form S :=
  {| cells := mount; inflight := []; platform := s |}.

(** The state of a form that handles one submission at a time: nothing in
    flight and the [submitting] flag down, or one promise in flight, the
    flag up, and a continuation that lowers it. *)
Definition one_submission {S} (f : Form S) : Prop :=
  (inflight f = [] ∧ submitting (cells f) = false)
  ∨ (∃ p, inflight f = [p] ∧ submitting (cells f) = true
          ∧ ∀ settled cur, submitting (settle p settled cur).1 = false).

End CommentsDialogActions.

(** ** [CreatePost] *)

Module CreatePost.

Record State := {
  image : option File;
  preview : option string;
  caption : string;
  loading : bool;
  error : option string;
}.

Definition setImage (f : option File) (st : State) : State :=
  {| image := f; preview := preview st; caption := caption st;
     loading := loading st; error := error st |}.
Definition setPreview (p : option string) (st : State) : State :=
  {| image := image st; preview := p; caption := caption st;
     loading := loading st; error := error st |}.
Definition setLoading (b : bool) (st : State) : State :=
  {| image := image st; preview := preview st; caption := caption st;
     loading := b; error := error st |}.
Definition setError (e : option string) (st : State) : State :=
  {| image := image st; preview := preview st; caption := caption st;
     loading := loading st; error := e |}.

(** [s || d] on strings: the empty string is falsy. *)
Definition or_string (s d : string) : string :=
  if String.eqb s EmptyString then d else s.

(** [caption || null] *)
Definition or_null (s : string) : option string :=
  if String.eqb s EmptyString then None else Some s.

Definition handleRemoveImage (st : State) : State :=
  setPreview None (setImage None st).

(** [handleSubmit]; [now] is the rendering of [Date.now()] at the upload. *)
Definition handleSubmit (user : option Auth.User) (now : string) (st : State)
    : State * option (Pending State unit) :=
  match user, image st with
  | Some user, Some image =>
      let st1 := setLoading true st in
      let st2 := setError None st1 in
      (st2,
       Some {|
         request :=
           imageUrl ← postsApi.uploadPostImage (Auth.id user) image now;
           _ ← postsApi.createPost (Auth.id user) imageUrl
                 (or_null (caption st));
           Return ();
         settle := λ settled cur,
           let '(cur1, effects) :=
             match settled with
             | Returned _ => (cur, [Navigate "/"])
             | Thrown err =>
                 (setError
                    (Some (or_string (message err) "Failed to create post"))
                    cur,
                  [])
             end in
           (setLoading false cur1, effects);
       |})
  | _, _ => (st, None)
  end.

(** A submission followed to its end on platform [h]. *)
Definition submit {S} (h : Handler S) (user : option Auth.User)
    (now : string) (st : State) (s : S)
    : State * list Effect * list Event * S :=
  match handleSubmit user now st with
  | (st', None) => (st', [], [], s)
  | (st', Some p) => settle_on h p st' s
  end.

End CreatePost.

(** ** The session store ([store/authStore]) *)

Module authStore.

(** [fetchProfile]: the value it passes to [set({ profile })], and what it
    logs. *)
Definition fetchProfile (userId : string)
    : Prog (option Profiles.row * list Effect) :=
  res ← await (SelectProfileById userId);
  match error res with
  | Some _ => Return (None, [ConsoleError "Error fetching profile:"])
  | None => Return (data res, [])
  end.

End authStore.

(** ** Reading more of the request log *)

(** The post rows the log asks the platform to insert: owner, image URL and
    caption. *)
Definition posts_inserted (t : list Event)
    : list (string * string * option string) :=
  t ≫= λ e,
    match e with
    | Ev r _ =>
        match r with
        | InsertPost userId imageUrl caption => [(userId, imageUrl, caption)]
        | _ => []
        end
    end.

(** The uploads of the log: bucket, path and overwrite flag. *)
Definition uploads (t : list Event) : list (string * string * bool) :=
  t ≫= λ e,
    match e with
    | Ev r _ =>
        match r with
        | StorageUpload bucket filePath upsert => [(bucket, filePath, upsert)]
        | _ => []
        end
    end.

(** The paths a public URL was derived for. *)
Definition urls_derived (t : list Event) : list (string * string) :=
  t ≫= λ e,
    match e with
    | Ev r _ =>
        match r with
        | StorageGetPublicUrl bucket filePath => [(bucket, filePath)]
        | _ => []
        end
    end.

(** Whether a string has a dot. *)
Fixpoint has_dot (s : string) : bool :=
  match s with
  | EmptyString => false
  | String c s' => Ascii.eqb c "."%char || has_dot s'
  end.

(** ** [Profile]: loading the page *)

(** [try { await p } catch (e) { ... }], as a value. *)
Fixpoint try_ {A} (p : Prog A) : Prog (Outcome A) :=
  match p with
  | Return a => Return (Returned a)
  | Throw e => Return (Thrown e)
  | Await r k => Await r (λ x, try_ (k x))
  end.

(** [Promise.all([a, b, c])]: the three calls are started one after the
    other, so all their requests go out; the promise rejects with the first
    rejection among them.  The platform answers the requests in the order
    they were sent. *)
Definition promise_all3 {A B C} (a : Prog A) (b : Prog B) (c : Prog C)
    : Prog (A * B * C) :=
  oa ← try_ a;
  ob ← try_ b;
  oc ← try_ c;
  match oa, ob, oc with
  | Thrown e, _, _ => Throw e
  | Returned _, Thrown e, _ => Throw e
  | Returned _, Returned _, Thrown e => Throw e
  | Returned x, Returned y, Returned z => Return (x, y, z)
  end.

Module ProfilePage.

(** The cells [loadProfile] writes: those of the follow button, and the
    rest. *)
Record Page := {
  cells : Profile.State;
  posts : list Post;
  postsCount : nat;
  followingCount : nat;
  loading : bool;
}.

Definition setCells (c : Profile.State) (pg : Page) : Page :=
  {| cells := c; posts := posts pg; postsCount := postsCount pg;
     followingCount := followingCount pg; loading := loading pg |}.
Definition setProfile (p : option Profiles.row) (pg : Page) : Page :=
  setCells {| Profile.profile := p;
              Profile.followersCount := Profile.followersCount (cells pg);
              Profile.isFollowing := Profile.isFollowing (cells pg) |} pg.
Definition setPosts (ps : list Post) (pg : Page) : Page :=
  {| cells := cells pg; posts := ps; postsCount := postsCount pg;
     followingCount := followingCount pg; loading := loading pg |}.
Definition setPostsCount (n : nat) (pg : Page) : Page :=
  {| cells := cells pg; posts := posts pg; postsCount := n;
     followingCount := followingCount pg; loading := loading pg |}.
Definition setFollowersCount (n : nat) (pg : Page) : Page :=
  setCells (Profile.setFollowersCount (Z.of_nat n) (cells pg)) pg.
Definition setFollowingCount (n : nat) (pg : Page) : Page :=
  {| cells := cells pg; posts := posts pg; postsCount := postsCount pg;
     followingCount := n; loading := loading pg |}.
Definition setIsFollowing (b : bool) (pg : Page) : Page :=
  setCells (Profile.setIsFollowing b (cells pg)) pg.
Definition setLoading (b : bool) (pg : Page) : Page :=
  {| cells := cells pg; posts := posts pg; postsCount := postsCount pg;
     followingCount := followingCount pg; loading := b |}.

(** The [catch] and [finally] blocks of [loadProfile]. *)
Definition caught (pg : Page) : Prog (Page * list Effect) :=
  Return (setLoading false pg,
          [ConsoleError "Error loading profile:"; Navigate "/"]).

(** The end of the [try] block, and [finally]. *)
Definition loaded (pg : Page) : Prog (Page * list Effect) :=
  Return (setLoading false pg, []).

(** [user && profileData.id !== user.id] *)
Definition is_somebody_else (user : option Auth.User)
    (profileData : Profiles.row) : bool :=
  match user with
  | Some user => negb (String.eqb (Profiles.id profileData) (Auth.id user))
  | None => false
  end.

(** [loadProfile], with the route's [username] and the session's [user] of
    its closure.  A [null] profile makes [profileData.id] throw, which the
    [catch] block handles like a failed request. *)
Definition loadProfile (username : option string) (user : option Auth.User)
    (pg : Page) : Prog (Page * list Effect) :=
  if negb (truthy username) then Return (pg, [])
  else
    let pg0 := setLoading true pg in
    got ← try_ (profilesApi.getProfileByUsername (username ||| EmptyString));
    match got with
    | Thrown _ => caught pg0
    | Returned None => caught (setProfile None pg0)
    | Returned (Some profileData) =>
        let pg1 := setProfile (Some profileData) pg0 in
        got ← try_ (postsApi.getPosts 20 0 (Some (Profiles.id profileData)));
        match got with
        | Thrown _ => caught pg1
        | Returned userPosts =>
            let pg2 := setPosts userPosts pg1 in
            got ← try_ (promise_all3
                          (followsApi.getPostsCount (Profiles.id profileData))
                          (followsApi.getFollowersCount (Profiles.id profileData))
                          (followsApi.getFollowingCount (Profiles.id profileData)));
            match got with
            | Thrown _ => caught pg2
            | Returned (postsCountData, followersCountData, followingCountData) =>
                let pg3 :=
                  setFollowingCount followingCountData
                    (setFollowersCount followersCountData
                       (setPostsCount postsCountData pg2)) in
                if is_somebody_else user profileData then
                  got ← try_ (followsApi.isFollowing
                                ((Auth.id <$> user) ||| EmptyString)
                                (Profiles.id profileData));
                  match got with
                  | Thrown _ => caught pg3
                  | Returned following => loaded (setIsFollowing following pg3)
                  end
                else loaded pg3
            end
        end
    end.

End ProfilePage.

Definition is_count_query (e : Event) : bool :=
  match e with
  | Ev r _ =>
      match r with
      | CountPosts _ | CountFollowers _ | CountFollowing _ => true
      | _ => false
      end
  end.

(** The follow lookups of the log: follower and followed user. *)
Definition follow_lookups (t : list Event) : list (string * string) :=
  t ≫= λ e,
    match e with
    | Ev r _ =>
        match r with
        | SelectFollowId a b => [(a, b)]
        | _ => []
        end
    end.

(** ** [Profile]: saving the edit dialog *)

Module ProfileEdit.

(** What [EditProfileDialog] passes to [onSave]. *)
Record FormData := {
  username : string;
  full_name : string;
  bio : string;
  avatar : option File;
}.

(** The cells of the dialog that [handleEditProfile] writes. *)
Record Dialog := {
  isEditDialogOpen : bool;
  editLoading : bool;
}.

Definition setIsEditDialogOpen (b : bool) (d : Dialog) : Dialog :=
  {| isEditDialogOpen := b; editLoading := editLoading d |}.
Definition setEditLoading (b : bool) (d : Dialog) : Dialog :=
  {| isEditDialogOpen := isEditDialogOpen d; editLoading := b |}.

(** The object passed to [updateProfile]: [full_name], [bio] and
    [avatarUrl] go through [|| null]. *)
Definition updates_of (formData : FormData) (avatarUrl : option string)
    : ProfileUpdates :=
  {| upd_username := Some (username formData);
     upd_full_name := Some (CreatePost.or_null (full_name formData));
     upd_bio := Some (CreatePost.or_null (bio formData));
     upd_avatar_url := Some (avatarUrl ≫= CreatePost.or_null) |}.

(** The [try] block of [handleEditProfile].  [route] is the [username] of
    the route, which the [loadProfile] of the closure reads; [random] is
    the rendering of [Math.random()] in [uploadAvatar]. *)
Definition save (route : option string) (user : Auth.User)
    (profile : Profiles.row) (formData : FormData) (random : string)
    (pg : ProfilePage.Page) (d : Dialog)
    : Prog (ProfilePage.Page * Dialog * list Effect) :=
  avatarUrl ←
    match avatar formData with
    | Some file =>
        url ← profilesApi.uploadAvatar (Auth.id user) file random;
        Return (Some url)
    | None => Return (Profiles.avatar_url profile)
    end;
  _ ← profilesApi.updateProfile (Auth.id user) (updates_of formData avatarUrl);
  stored ← authStore.fetchProfile (Auth.id user);
  reloaded ← ProfilePage.loadProfile route (Some user) pg;
  let d1 := setIsEditDialogOpen false d in
  Return (reloaded.1, d1,
          stored.2 ++ reloaded.2
          ++ (if String.eqb (username formData) (Profiles.username profile)
              then []
              else [NavigateReplace ("/profile/" +:+ username formData)])).

(** [handleEditProfile] *)
Definition handleEditProfile (route : option string)
    (user : option Auth.User) (formData : FormData) (random : string)
    (pg : ProfilePage.Page) (d : Dialog)
    : Prog (ProfilePage.Page * Dialog * list Effect) :=
  match user, Profile.profile (ProfilePage.cells pg) with
  | Some user, Some profile =>
      let d0 := setEditLoading true d in
      got ← try_ (save route user profile formData random pg d0);
      match got with
      | Returned (pg', d', effects) => Return (pg', setEditLoading false d', effects)
      | Thrown err =>
          Return (pg, setEditLoading false d0,
                  [ConsoleError "Error updating profile:";
                   Alert (CreatePost.or_string (message err)
                            "Failed to update profile")])
      end
  | _, _ => Return (pg, d, [])
  end.

End ProfileEdit.

(** No effect of the list replaces the current route. *)
Definition NavigateReplace_free (effects : list Effect) : Prop :=
  Forall (λ e, match e with NavigateReplace _ => False | _ => True end) effects.

(** The profile updates of the log: whose profile, which fields, and the
    error the platform answered with. *)
Definition profile_updates (t : list Event)
    : list (string * ProfileUpdates * option PgError) :=
  t ≫= λ e,
    match e with
    | Ev r x =>
        match r in Request X
              return X → list (string * ProfileUpdates * option PgError) with
        | UpdateProfile userId updates => λ res, [(userId, updates, error res)]
        | _ => λ _, []
        end x
    end.

(** ** More sample platforms *)

Module Scenario.

(** The comment row the platform answers an insert with. *)
Definition new_comment (postId userId content : string) : Comments.row :=
  {| Comments.id := "c-new"; Comments.post_id := postId;
     Comments.user_id := userId; Comments.content := content;
     Comments.created_at := 99; Comments.profile := Some Sample.alice |}.

(** The profile row the platform answers an update with. *)
Definition updated (userId : string) (updates : ProfileUpdates)
    : Profiles.row :=
  {| Profiles.id := userId;
     Profiles.username := upd_username updates ||| "alice";
     Profiles.full_name := upd_full_name updates ||| None;
     Profiles.bio := upd_bio updates ||| None;
     Profiles.avatar_url := upd_avatar_url updates ||| None |}.

(** A platform that accepts new comments and profile updates, and refuses
    what else it is asked. *)
Definition accepting : ∀ X, Request X → X :=
  λ X r,
    match r in Request X return X with
    | InsertComment postId userId content =>
        {| data := Some (new_comment postId userId content); error := None |}
    | UpdateProfile userId updates =>
        {| data := Some (updated userId updates); error := None |}
    | r' => rejecting Sample.offline _ r'
    end.



End Scenario.

(** ** More proof automation *)

(** Follows a program through its requests to platform [h], one case per
    answer the program tells apart. *)
Ltac follow_requests h :=
  repeat first
    [ progress cbn [mbind Prog_bind bind await run try_ promise_all3
                    ProfilePage.caught ProfilePage.loaded error data count
                    count_error fst snd negb]
    | match goal with
      | |- context [h ?X ?r ?s] =>
          let x := fresh "res" in
          let s' := fresh "s" in
          destruct (h X r s) as [x s']
      | |- context [match ?x with _ => _ end] => is_var x; destruct x
      | |- context [match error ?x with _ => _ end] => is_var x; destruct x
      | |- context [match count_error ?x with _ => _ end] =>
          is_var x; destruct x
      | |- context [run h (_ ← (if ?b then _ else _); _)] => destruct b eqn:?
      | |- context [try_ (if ?b then _ else _)] => destruct b eqn:?
      | |- context [try_ (_ ← (if ?b then _ else _); _)] => destruct b eqn:?
      | |- context [run h (if ?b then _ else _)] => destruct b eqn:?
      end ].

(** ** Proof automation *)

(** Follows [getPosts] through its requests to platform [h], one case per
    path of the function. *)
Ltac getPosts_paths h :=
  unfold postsApi.getPosts;
  repeat first
    [ progress cbn [mbind Prog_bind bind await run error data]
    | match goal with
      | |- context [h ?X ?r ?s] =>
          let x := fresh "res" in
          let s' := fresh "s" in
          destruct (h X r s) as [x s']
      | |- context [run h (match error ?res with _ => _ end)] =>
          destruct res as [[[|? ?]|] [?|]]
      | |- context [run h (_ ← (if truthy ?cu then _ else _); _)] =>
          destruct (truthy cu) eqn:?
      end ].

(** Meets the next request of the program with the answer of a rejecting
    platform. *)
Ltac rejected h Hrej :=
  cbn [mbind Prog_bind bind await run void];
  match goal with
  | |- context [h ?X ?r ?s] =>
      let H := fresh "Hres" in
      pose proof (Hrej X r s) as H;
      destruct (h X r s) as [? ?]; cbn in H; try rewrite H; try subst
  end;
  cbn [mbind Prog_bind bind await run void fst snd].


(** * Properties *)

(** ** Programs and their logs *)

Lemma run_bind {S A B} (h : Handler S) (p : Prog A) (f : A → Prog B) (s : S) :
  run h (bind p f) s =
    match run h p s with
    | (Returned a, t, s1) =>
        let '(o, t', s2) := run h (f a) s1 in (o, t ++ t', s2)
    | (Thrown e, t, s1) => (Thrown e, t, s1)
    end.
Proof.
  revert s. induction p as [a|e|X r k IH]; intros s; simpl.
  - by destruct (run h (f a) s) as [[o t'] s2].
  - done.
  - destruct (h X r s) as [x s1]. rewrite IH.
    destruct (run h (k x) s1) as [[[a|e] t] s2]; [|done].
    by destruct (run h (f a) s2) as [[o t'] s3].
Qed.

(** ** The count map of the feed aggregation *)

Lemma countMap_foldl (rows : list PostIdRow) (m : gmap string nat) (k : string) :
  ((foldl (λ (m : gmap string nat) r,
             <[post_id r := ((m !! post_id r) ||| 0%nat) + 1]> m)%nat m rows
      !! k) ||| 0%nat)
  = (((m !! k) ||| 0%nat) + length (rows_of k rows))%nat.
Proof.
  revert m. induction rows as [|r rows IH]; intros m; simpl.
  - unfold rows_of. simpl. lia.
  - rewrite IH. unfold rows_of. rewrite filter_cons.
    destruct (decide (post_id r = k)) as [->|Hne]; simpl.
    + rewrite lookup_insert_eq. simpl. lia.
    + by rewrite lookup_insert_ne.
Qed.

Lemma countMap_lookup (rows : list PostIdRow) (k : string) :
  ((countMap rows !! k) ||| 0%nat) = length (rows_of k rows).
Proof. unfold countMap. rewrite countMap_foldl, lookup_empty. done. Qed.

Lemma includes_true (l : list string) (x : string) :
  includes l x = true ↔ x ∈ l.
Proof. unfold includes. by rewrite bool_decide_eq_true. Qed.

(** ** Feed aggregation: [postsApi.getPosts] *)

Lemma fmap_section {A B} (g : B → A) (f : A → B) (l : list A) :
  (∀ x, g (f x) = x) → g <$> (f <$> l) = l.
Proof.
  intros Hgf. rewrite <- list_fmap_compose.
  rewrite <- (list_fmap_id l) at 2. apply list_fmap_ext. intros _ x _. apply Hgf.
Qed.

Lemma Forall_fmap_all {A B} (P : B → Prop) (f : A → B) (l : list A) :
  (∀ x, P (f x)) → Forall P (f <$> l).
Proof. intros HP. apply Forall_fmap, Forall_true. intros x. apply HP. Qed.

Lemma truthy_Some (o : option string) :
  truthy o = true → ∃ u, o = Some u.
Proof. destruct o; [eauto|done]. Qed.

(** C2: one call of [getPosts], whatever the page size, the offset and the
    platform's answers, issues at most one posts query, at most one likes
    query, at most one comments query, and a viewer-likes query at most once
    and only when the session lookup reported a viewer; the batched queries
    range over the ids of the fetched page.  The whole log has at most five
    entries (the session lookup and these four), a bound in which the page
    size does not occur. *)
Theorem getPosts_query_budget {S} (h : Handler S) (s : S)
    (limit offset : Z) (userId : option string) :
  let t := (run h (postsApi.getPosts limit offset userId) s).1.2 in
  (issued is_posts_query t ≤ 1)%nat ∧
  (issued is_likes_query t ≤ 1)%nat ∧
  (issued is_comments_query t ≤ 1)%nat ∧
  (issued is_viewer_likes_query t ≤ if truthy (viewer_of t) then 1 else 0)%nat ∧
  (length t ≤ 5)%nat ∧
  Forall (λ e, is_auth_call e || is_posts_query e || is_likes_query e
               || is_comments_query e || is_viewer_likes_query e) t ∧
  Forall (batched_over (Posts.id <$> posts_fetched t) (viewer_of t)) t.
Proof.
  intros t. subst t. getPosts_paths h; cbn.
  all: try match goal with H : truthy ?cu = true |- _ =>
         destruct cu as [u|]; [rewrite ?H | discriminate H] end.
  all: split_and!; try lia; try done.
  all: repeat (apply Forall_cons; split); try apply Forall_nil; done.
Qed.

Lemma getPosts_decorates_fetched {S} (h : Handler S) (s : S)
    (limit offset : Z) (userId : option string) (posts : list Post) :
  let r := run h (postsApi.getPosts limit offset userId) s in
  let t := r.1.2 in
  r.1.1 = Returned posts →
  posts_fetched t ≠ [] →
  row <$> posts = posts_fetched t ∧
  Forall (λ p,
    likes_count p = length (rows_of (Posts.id (row p)) (like_rows t)) ∧
    comments_count p = length (rows_of (Posts.id (row p)) (comment_rows t)) ∧
    (is_liked p = true ↔
       ∃ u, viewer_of t = Some u
            ∧ Posts.id (row p) ∈ post_id <$> viewer_like_rows u t)) posts.
Proof.
  intros r t. subst t r. getPosts_paths h.
  all: cbn -[fmap]; intros [= <-] Hne; try done.
  all: match goal with
       | |- context [?x :: list_fmap ?A ?B ?f ?l] =>
           change (x :: list_fmap A B f l) with (f <$> (r :: l))
       end.
  - match goal with H : truthy _ = true |- _ =>
      apply truthy_Some in H as [u ->] end.
    split; [by apply fmap_section|].
    apply Forall_fmap_all. intros p. cbn -[fmap].
    rewrite !countMap_lookup, !app_nil_r.
    split_and!; try done.
    rewrite includes_true. split.
    + intros Hin. exists u. by rewrite bool_decide_true, app_nil_r.
    + intros (u' & [= <-] & Hin).
      by rewrite bool_decide_true, app_nil_r in Hin.
  - split.
    { rewrite <- list_fmap_compose. apply list_fmap_id. }
    apply Forall_fmap, Forall_true. intros p. cbn -[fmap].
    rewrite !countMap_lookup, !app_nil_r.
    split_and!; try done.
    unfold includes. rewrite bool_decide_eq_true. split.
    + by intros ?%elem_of_nil.
    + by intros (u' & _ & ?%elem_of_nil).
Qed.

(** C7: when the session lookup reports no viewer, [getPosts] issues no
    viewer-likes query, and every post it returns has [is_liked = false]. *)
Theorem getPosts_without_viewer {S} (h : Handler S) (s : S)
    (limit offset : Z) (userId : option string) :
  let r := run h (postsApi.getPosts limit offset userId) s in
  let t := r.1.2 in
  viewer_of t = None →
  issued is_viewer_likes_query t = 0%nat ∧
  ∀ posts, r.1.1 = Returned posts → Forall (λ p, is_liked p = false) posts.
Proof.
  intros r t. subst t r. getPosts_paths h.
  all: cbn -[fmap]; intros Hv; subst; try done.
  all: split; [done|]; intros posts [= <-]; try done.
  match goal with
  | |- context [?x :: list_fmap ?A ?B ?f ?l] =>
      change (x :: list_fmap A B f l) with (f <$> (r :: l))
  end.
  apply Forall_fmap_all. intros p. cbn.
  unfold includes. apply bool_decide_eq_false. by intros ?%elem_of_nil.
Qed.

(** C8: when the posts query answers without an error and with no rows,
    [getPosts] returns the empty sequence and issues none of the batched
    likes, comments and viewer-likes queries. *)
Theorem getPosts_empty_page {S} (h : Handler S) (s : S)
    (limit offset : Z) (userId : option string)
    (res : Response (list Posts.row)) :
  let r := run h (postsApi.getPosts limit offset userId) s in
  let t := r.1.2 in
  posts_response t = Some res →
  error res = None →
  data res ||| [] = [] →
  r.1.1 = Returned [] ∧
  issued is_likes_query t = 0%nat ∧
  issued is_comments_query t = 0%nat ∧
  issued is_viewer_likes_query t = 0%nat.
Proof.
  intros r t. subst t r. getPosts_paths h.
  all: cbn; intros [= <-]; cbn; done.
Qed.

(** *** The feed on the platform of [supabase/schema.sql] *)

Section FeedOnPlatform.
Import Supabase.

Lemma rows_of_select_likes_in (w : World) (ids : list string) (k : string) :
k ∈ ids →
length (rows_of k (select_likes_in w ids))
= length (filter (λ l, Likes.post_id l = k) (likes (db w))).
Proof.
intros Hk. unfold rows_of, select_likes_in.
induction (likes (db w)) as [|l ls IH]; [done|].
rewrite !filter_cons.
destruct (decide (Likes.post_id l = k)) as [Heq|Hne].
- rewrite (decide_True (P := Likes.post_id l ∈ ids))
    by (by rewrite Heq).
  rewrite fmap_cons, filter_cons, decide_True by done.
  cbn [length]. by rewrite IH.
- destruct (decide (Likes.post_id l ∈ ids)); [|done].
  by rewrite fmap_cons, filter_cons, decide_False by done.
Qed.

Lemma rows_of_select_comments_in (w : World) (ids : list string) (k : string) :
k ∈ ids →
length (rows_of k (select_comments_in w ids))
= length (filter (λ c, Comments.post_id c = k) (comments (db w))).
Proof.
intros Hk. unfold rows_of, select_comments_in.
induction (comments (db w)) as [|c cs IH]; [done|].
rewrite !filter_cons.
destruct (decide (Comments.post_id c = k)) as [Heq|Hne].
- rewrite (decide_True (P := Comments.post_id c ∈ ids))
    by (by rewrite Heq).
  rewrite fmap_cons, filter_cons, decide_True by done.
  cbn [length]. by rewrite IH.
- destruct (decide (Comments.post_id c ∈ ids)); [|done].
  by rewrite fmap_cons, filter_cons, decide_False by done.
Qed.

Lemma elem_of_select_user_likes_in (w : World) (ids : list string)
  (u k : string) :
k ∈ ids →
k ∈ post_id <$> select_user_likes_in w ids u
↔ Exists (like_matches k u) (likes (db w)).
Proof.
intros Hk. unfold select_user_likes_in.
rewrite <- list_fmap_compose, list_elem_of_fmap, Exists_exists.
split.
- intros (l & -> & Hl). apply list_elem_of_filter in Hl as [[_ Hu] Hl].
  exists l. by split.
- intros (l & Hl & [Hp Hu]). exists l. split; [done|].
  apply list_elem_of_filter. split; [|done]. by rewrite Hp.
Qed.

Lemma getPosts_on_platform other (w : World) (limit offset : Z)
  (userId : option string) (posts : list Post) :
(run (supabase other) (postsApi.getPosts limit offset userId) w).1.1
  = Returned posts →
Forall (λ p,
  likes_count p
    = length (filter (λ l, Likes.post_id l = Posts.id (row p)) (likes (db w)))
  ∧ comments_count p
    = length (filter (λ c, Comments.post_id c = Posts.id (row p))
                (comments (db w)))
  ∧ (is_liked p = true ↔
       ∃ u, auth_uid w = Some u ∧ u ≠ EmptyString
            ∧ Exists (like_matches (Posts.id (row p)) u) (likes (db w))))
  posts.
Proof.
unfold postsApi.getPosts.
cbn [mbind Prog_bind bind await run supabase ok error data].
destruct (select_posts_page w offset (offset + limit - 1)
            (if truthy userId then userId else None)) as [|r l] eqn:Hpage.
{ cbn. by intros [= <-]. }
destruct (auth_uid w) as [u|] eqn:Hviewer; cbn [truthy];
  [destruct (String.eqb_spec u EmptyString) as [->|Hu]|].
all: cbn [mbind Prog_bind bind await run supabase ok error data fst snd negb
          default].
all: intros [= <-].
all: repeat match goal with
     | |- context [Posts.id ?r' :: list_fmap ?A ?B Posts.id ?l'] =>
         change (Posts.id r' :: list_fmap A B Posts.id l')
           with (Posts.id <$> (r' :: l'))
     end.
all: match goal with
     | _ : _ = ?r' :: ?l' |- Forall _ (?x :: list_fmap ?A ?B ?f ?l') =>
         change (x :: list_fmap A B f l') with (f <$> (r' :: l'))
     end.
all: apply Forall_fmap, Forall_forall; intros p Hp; cbn [compose row
       likes_count comments_count is_liked].
all: match type of Hp with
     | ?q ∈ ?page =>
         assert (Posts.id q ∈ Posts.id <$> page) as Hid
           by (by apply list_elem_of_fmap_2)
     end.
all: rewrite !countMap_lookup, rows_of_select_likes_in,
       rows_of_select_comments_in by done.
all: split_and!; try done.
- unfold includes. rewrite bool_decide_eq_true. split.
  + by intros ?%elem_of_nil.
  + by intros (u' & [= <-] & ? & _).
- rewrite includes_true, elem_of_select_user_likes_in by done. split.
  + intros Hex. by exists u.
  + by intros (u' & [= <-] & _ & Hex).
- unfold includes. rewrite bool_decide_eq_true. split.
  + by intros ?%elem_of_nil.
  + by intros (u' & [= ] & _).
Qed.

End FeedOnPlatform.

(** C3: when [getPosts] returns for a non-empty fetched page, the result
    lists the fetched posts in the order the posts query delivered them, and
    each carries the number of fetched like rows and of fetched comment rows
    with its id, and [is_liked] exactly when the session's viewer has a
    fetched like row for it.  On the platform of the schema these are the
    numbers of rows of the likes and comments tables with the post's id, and
    [is_liked] says that the likes table has a row of the viewer for the
    post. *)
Theorem getPosts_attaches_counts :
  (∀ S (h : Handler S) (s : S) limit offset userId (posts : list Post),
     let r := run h (postsApi.getPosts limit offset userId) s in
     let t := r.1.2 in
     r.1.1 = Returned posts →
     posts_fetched t ≠ [] →
     row <$> posts = posts_fetched t ∧
     Forall (λ p,
       likes_count p = length (rows_of (Posts.id (row p)) (like_rows t)) ∧
       comments_count p = length (rows_of (Posts.id (row p)) (comment_rows t)) ∧
       (is_liked p = true ↔
          ∃ u, viewer_of t = Some u
               ∧ Posts.id (row p) ∈ post_id <$> viewer_like_rows u t)) posts)
  ∧ (∀ other (w : Supabase.World) limit offset userId (posts : list Post),
       (run (Supabase.supabase other)
          (postsApi.getPosts limit offset userId) w).1.1 = Returned posts →
       Forall (λ p,
         likes_count p
           = length (filter (λ l, Likes.post_id l = Posts.id (row p))
                       (Supabase.likes (Supabase.db w)))
         ∧ comments_count p
           = length (filter (λ c, Comments.post_id c = Posts.id (row p))
                       (Supabase.comments (Supabase.db w)))
         ∧ (is_liked p = true ↔
              ∃ u, Supabase.auth_uid w = Some u ∧ u ≠ EmptyString
                   ∧ Exists (Supabase.like_matches (Posts.id (row p)) u)
                       (Supabase.likes (Supabase.db w)))) posts).
Proof.
  split.
  - intros S h s limit offset userId posts.
    apply getPosts_decorates_fetched.
  - intros other w limit offset userId posts.
    apply getPosts_on_platform.
Qed.

(** ** Optimistic like toggle: [PostCard.handleLike] *)

Section LikeToggle.
Import PostCard.

Lemma handleLike_accepts (user : Auth.User) (post : Post) (st : State) :
  isLiking st = false →
  ∃ k, handleLike (Some user) post st =
         (setLikesCount
            (if isLiked st then likesCount st - 1 else likesCount st + 1)
            (setIsLiked (negb (isLiked st)) (setIsLiking true st)),
          Some k)
       ∧ awaiting k =
           (if isLiked st
            then likesApi.unlikePost (Posts.id (row post)) (Auth.id user)
            else likesApi.likePost (Posts.id (row post)) (Auth.id user))
       ∧ (∀ cur, resume k (Returned ()) cur = setIsLiking false cur)
       ∧ (∀ e cur, resume k (Thrown e) cur =
            setIsLiking false
              (setLikesCount (likesCount st) (setIsLiked (isLiked st) cur))).
Proof.
  intros Hidle. unfold handleLike. rewrite Hidle.
  eexists. split; [reflexivity|]. simpl. done.
Qed.

Lemma handleLike_guard (user : option Auth.User) (post : Post) (st : State) :
  isLiking st = true → handleLike user post st = (st, None).
Proof. intros Hbusy. unfold handleLike. rewrite Hbusy. by destruct user. Qed.

(** C1: a toggle by a signed-in user on an idle control whose flag is
    not-liked sets the flag and adds exactly 1 to the counter while the
    [likePost] request is still pending; from liked it clears the flag and
    subtracts exactly 1 while [unlikePost] is pending.  When the platform
    then makes the request fail, the flag and the counter are back at the
    values captured before the toggle. *)
Theorem handleLike_optimistic_then_reverts {S} (h : Handler S) (s : S)
    (user : Auth.User) (post : Post) (st : State) :
  isLiking st = false →
  let idle := {| cells := st; inflight := []; platform := s |} in
  let pending := step h post idle (Click (Some user)) in
  let settled := step h post pending (Settle 0) in
  (isLiked st = false →
     isLiked (cells pending) = true
     ∧ likesCount (cells pending) = likesCount st + 1
     ∧ awaiting <$> inflight pending =
         [likesApi.likePost (Posts.id (row post)) (Auth.id user)])
  ∧ (isLiked st = true →
     isLiked (cells pending) = false
     ∧ likesCount (cells pending) = likesCount st - 1
     ∧ awaiting <$> inflight pending =
         [likesApi.unlikePost (Posts.id (row post)) (Auth.id user)])
  ∧ (∀ k e, inflight pending = [k] →
       (run h (awaiting k) s).1.1 = Thrown e →
       isLiked (cells settled) = isLiked st
       ∧ likesCount (cells settled) = likesCount st
       ∧ inflight settled = []).
Proof.
  intros Hidle idle pending settled.
  destruct (handleLike_accepts user post st Hidle)
    as (k & Hk & Hawait & Hok & Hfail).
  assert (pending = {| cells := (handleLike (Some user) post st).1;
                       inflight := [k]; platform := s |}) as Hpending.
  { subst pending idle. unfold step. cbn [cells inflight platform].
    by rewrite Hk. }
  rewrite Hk in Hpending. cbn [fst] in Hpending.
  split_and!.
  - intros Hoff. rewrite Hpending. cbn. rewrite Hawait, Hoff. done.
  - intros Hon. rewrite Hpending. cbn. rewrite Hawait, Hon. done.
  - intros k' e Hk' Hrun. subst settled. rewrite Hpending in Hk' |- *.
    cbn in Hk'. injection Hk' as <-.
    unfold step. cbn [inflight lookup list_lookup platform cells].
    destruct (run h (awaiting k) s) as [[o t] s'] eqn:Hr.
    cbn in Hrun. subst o. cbn [cells inflight]. rewrite Hfail. done.
Qed.

Lemma one_at_a_time_start {S} (post : Post) (s : S) :
  one_at_a_time (start post s).
Proof. by left. Qed.

Lemma one_at_a_time_step {S} (h : Handler S) (post : Post)
    (c : Control S) (ev : UiEvent) :
  one_at_a_time c → one_at_a_time (step h post c ev).
Proof.
  intros [[Hnone Hidle] | (k & Hone & Hbusy & Hlowers)];
    destruct ev as [[user|] | i]; unfold step.
  - destruct (handleLike_accepts user post (cells c) Hidle)
      as (k & -> & _ & Hok & Hfail).
    right. exists k. rewrite Hnone. split_and!; [done..|].
    intros [[]|e] cur; by rewrite ?Hok, ?Hfail.
  - left. cbn. by rewrite Hnone.
  - rewrite Hnone. cbn. by left.
  - rewrite handleLike_guard by done. right. exists k. cbn.
    by rewrite Hone.
  - right. exists k. cbn. by rewrite Hone.
  - rewrite Hone. destruct i as [|i]; cbn.
    + destruct (run h (awaiting k) (platform c)) as [[o t] s'].
      left. cbn. done.
    + right. exists k. done.
Qed.

Lemma one_at_a_time_run {S} (h : Handler S) (post : Post) (s : S)
    (evs : list UiEvent) :
  one_at_a_time (foldl (step h post) (start post s) evs).
Proof.
  induction evs as [|ev evs IH] using rev_ind.
  - apply one_at_a_time_start.
  - rewrite foldl_app. cbn. by apply one_at_a_time_step.
Qed.

(** C4: after any sequence of clicks and settlements on a control, at most
    one like or unlike request is in flight; and while one is in flight, a
    further click leaves the control as it is: same cells, same requests in
    flight, nothing sent to the platform. *)
Theorem handleLike_one_in_flight {S} (h : Handler S) (post : Post) (s : S)
    (evs : list UiEvent) :
  let c := foldl (step h post) (start post s) evs in
  (length (inflight c) ≤ 1)%nat
  ∧ (inflight c ≠ [] →
     ∀ user, handleLike user post (cells c) = (cells c, None)
             ∧ step h post c (Click user) = c).
Proof.
  intros c.
  destruct (one_at_a_time_run h post s evs)
    as [[Hnone Hidle] | (k & Hone & Hbusy & _)]; fold c in Hnone, Hidle || fold c in Hone, Hbusy.
  - rewrite Hnone. split; [cbn; lia | done].
  - rewrite Hone. split; [cbn; lia |]. intros _ user.
    split; [by apply handleLike_guard|].
    unfold step. rewrite handleLike_guard by done.
    destruct c as [st fl pf]. cbn in *. by rewrite app_nil_r.
Qed.

End LikeToggle.

(** ** Follows *)

Section FollowRules.
Import Supabase Profile.

Lemma insert_follow_self (w : World) (a : string) :
  ∃ e, insert_follow a a w = (failed e, w).
Proof.
  unfold insert_follow.
  destruct (bool_decide (auth_uid w = Some a)); cbn; [|by eexists].
  rewrite bool_decide_true by done. by eexists.
Qed.

Lemma insert_follow_keeps_no_self_follow (w : World) (a b : string) :
  no_self_follow w → no_self_follow (insert_follow a b w).2.
Proof.
  intros Hw. unfold insert_follow.
  repeat (case_match; cbn [snd]; try done).
  unfold no_self_follow. cbn. apply Forall_app. split; [done|].
  apply Forall_singleton. cbn.
  match goal with H : bool_decide (a = b) = false |- _ =>
    by apply bool_decide_eq_false in H end.
Qed.

Lemma handleFollow_own_profile (env : Env) (st : State)
    (u : Auth.User) (p : Profiles.row) :
  user env = Some u → profile st = Some p → Profiles.id p = Auth.id u →
  handleFollow env st = (st, None).
Proof.
  intros Hu Hp Hsame. unfold handleFollow, isOwnProfile.
  rewrite Hu, Hp. cbn. rewrite Hsame.
  rewrite (bool_decide_true (Some (Auth.id u) = Some (Auth.id u))) by done.
  by rewrite orb_true_r.
Qed.

Lemma handleFollow_requests_others {S} (h : Handler S) (env : Env)
    (st : State) (s : S) :
  issued is_self_follow_request (follow_click h env st s).1.2 = 0%nat.
Proof.
  unfold follow_click, handleFollow.
  destruct (user env) as [u|] eqn:Hu; [|done].
  destruct (profile st) as [p|] eqn:Hp; [|done].
  destruct (isOwnProfile env st) eqn:Hown; [done|].
  assert (Auth.id u ≠ Profiles.id p) as Hne.
  { unfold isOwnProfile in Hown. rewrite Hu, Hp in Hown.
    apply orb_false_elim in Hown as [_ Hown].
    apply bool_decide_eq_false in Hown. cbn in Hown. congruence. }
  destruct (isFollowing st);
    unfold followsApi.unfollowUser, followsApi.followUser;
    cbn [awaiting mbind Prog_bind bind await run];
    match goal with |- context [h ?X ?r s] =>
      destruct (h X r s) as [[d [e|]] s'] end;
    cbn; try done.
  all: by rewrite bool_decide_false.
Qed.

(** C5: no follow of a user by themselves comes into existence.  The
    profile page never sends such a request: a click on the follow button
    of the viewer's own profile changes nothing and reaches no platform,
    and no click at all sends an insert whose follower is the followed
    user.  A direct [followUser a a] is refused by the follows table: the
    call throws and the tables are as before; and whatever pair
    [followUser] is called with, a follows table without self-follows
    stays without them. *)
Theorem no_self_follow_created :
  (∀ S (h : Handler S) env st s,
     issued is_self_follow_request (follow_click h env st s).1.2 = 0%nat)
  ∧ (∀ S (h : Handler S) env st s u p,
       user env = Some u → profile st = Some p →
       Profiles.id p = Auth.id u →
       follow_click h env st s = (st, [], s))
  ∧ (∀ other w a,
       ∃ e, run (supabase other) (followsApi.followUser a a) w
            = (Thrown e,
               [Ev (InsertFollow a a) {| data := None; error := Some e |}],
               w))
  ∧ (∀ other w a b,
       no_self_follow w →
       no_self_follow (run (supabase other) (followsApi.followUser a b) w).2).
Proof.
  split_and!.
  - intros. apply handleFollow_requests_others.
  - intros S h env st s u p Hu Hp Hsame. unfold follow_click.
    by rewrite (handleFollow_own_profile env st u p).
  - intros other w a. destruct (insert_follow_self w a) as [e He].
    exists e. unfold followsApi.followUser.
    cbn [mbind Prog_bind bind await run supabase]. rewrite He. done.
  - intros other w a b Hw. unfold followsApi.followUser.
    cbn [mbind Prog_bind bind await run supabase].
    pose proof (insert_follow_keeps_no_self_follow w a b Hw) as Hkeep.
    destruct (insert_follow a b w) as [[d [e|]] w']; done.
Qed.

Lemma filter_idem {A} (P : A → Prop) `{∀ x, Decision (P x)} (l : list A) :
  filter P (filter P l) = filter P l.
Proof.
  induction l as [|x l IH]; [done|].
  rewrite filter_cons. case_decide; [|done].
  rewrite filter_cons. rewrite decide_True by done. by rewrite IH.
Qed.

Lemma filter_none {A} (P : A → Prop) `{∀ x, Decision (P x)} (l : list A) :
  Forall P l → filter P l = l.
Proof.
  induction 1 as [|x l Hx Hl IH]; [done|].
  rewrite filter_cons, decide_True by done. by rewrite IH.
Qed.

(** C10: on a reachable platform, [unlikePost] and [unfollowUser] return
    without an exception whether or not a row matches; when no row matches
    they leave the platform as it is; and a second call in succession
    returns as well and leaves the platform as the first call left it. *)
Theorem unlike_unfollow_idempotent (other : ∀ X, Request X → X)
    (w : World) (x y : string) :
  (let first := run (supabase other) (likesApi.unlikePost x y) w in
   let second := run (supabase other) (likesApi.unlikePost x y) first.2 in
   first.1.1 = Returned ()
   ∧ second.1.1 = Returned ()
   ∧ second.2 = first.2
   ∧ (Forall (λ l, ¬ like_matches x y l) (likes (db w)) → first.2 = w))
  ∧
  (let first := run (supabase other) (followsApi.unfollowUser x y) w in
   let second := run (supabase other) (followsApi.unfollowUser x y) first.2 in
   first.1.1 = Returned ()
   ∧ second.1.1 = Returned ()
   ∧ second.2 = first.2
   ∧ (Forall (λ f, ¬ follow_matches x y f) (follows (db w)) → first.2 = w)).
Proof.
  destruct w as [[pr po li co fo] uid seq].
  split; cbn; split_and!; try done.
  - unfold set_likes. cbn. by rewrite filter_idem.
  - intros Hnone. unfold set_likes. cbn. rewrite filter_none; [done|].
    eapply Forall_impl; [exact Hnone|]. cbn. tauto.
  - unfold set_follows. cbn. by rewrite filter_idem.
  - intros Hnone. unfold set_follows. cbn. rewrite filter_none; [done|].
    eapply Forall_impl; [exact Hnone|]. cbn. tauto.
Qed.

End FollowRules.

(** ** Error handling of the data-access layer *)

Lemma rejecting_rejects (e : PgError) : rejects (stateless (rejecting e)) e.
Proof. intros X r s. by destruct r. Qed.





(** ** Comment thread *)

Section CommentThread.
Import Supabase CommentsDialog.

Lemma select_comments_of_sorted (w : World) (postId : string) :
  StronglySorted comment_older (select_comments_of w postId).
Proof. apply StronglySorted_merge_sort; apply _. Qed.

Lemma select_comments_of_all (w : World) (postId : string) :
  select_comments_of w postId
  ≡ₚ with_comment_profile w
       <$> filter (λ c, Comments.post_id c = postId) (Supabase.comments (db w)).
Proof. apply merge_sort_Permutation. Qed.

(** C9: the thread of a post renders all of the post's comments, and in
    ascending order of creation time: the rendered entries are those of a
    list that holds exactly the post's comment rows and is sorted by
    [created_at].  For comments A (t=1), B (t=2), C (t=3), in whatever
    order the table holds them, the thread reads A, B, C. *)
Theorem comment_thread_oldest_first :
  (∀ other (w : World) user postId,
     ∃ cs,
       StronglySorted comment_older cs
       ∧ cs ≡ₚ with_comment_profile w
             <$> filter (λ c, Comments.post_id c = postId) (Supabase.comments (db w))
       ∧ open_and_render (supabase other) user postId w =
           match cs with
           | [] => NoCommentsYet
           | _ => Thread (entry user <$> cs)
           end)
  ∧ (∀ stored user,
       stored ≡ₚ [Sample.commentA; Sample.commentB; Sample.commentC;
                  Sample.other_comment] →
       texts (open_and_render Sample.platform user "p-1"
                (Sample.world None stored))
       = ["A"; "B"; "C"]).
Proof.
  split.
  - intros other w user postId. exists (select_comments_of w postId).
    split_and!.
    + apply select_comments_of_sorted.
    + apply select_comments_of_all.
    + unfold open_and_render, loadComments, commentsApi.getComments.
      cbn [mbind Prog_bind bind await run supabase fetching loaded ok
           error data]. cbn.
      unfold render. cbn. by destruct (select_comments_of w postId).
  - intros stored user Hperm.
    symmetry in Hperm. apply permutations_Permutation in Hperm.
    vm_compute in Hperm.
    repeat (apply elem_of_cons in Hperm as [->|Hperm]; [by vm_compute|]).
    by apply elem_of_nil in Hperm.
Qed.

End CommentThread.

(** ** The theorems at work on the sample data *)

Lemma getPosts_attaches_counts_witness :
  let t := (run Sample.platform (postsApi.getPosts 10 0 None)
              (Sample.home (Some "u-alice"))).1.2 in
  let posts := Sample.feed (Some "u-alice") in
  posts_fetched t ≠ []
  ∧ row <$> posts = posts_fetched t
  ∧ Forall (λ p,
      likes_count p = length (rows_of (Posts.id (row p)) (like_rows t)) ∧
      comments_count p = length (rows_of (Posts.id (row p)) (comment_rows t)) ∧
      (is_liked p = true ↔
         ∃ u, viewer_of t = Some u
              ∧ Posts.id (row p) ∈ post_id <$> viewer_like_rows u t)) posts.
Proof.
  split; [vm_compute; discriminate|].
  apply (proj1 getPosts_attaches_counts _ Sample.platform
           (Sample.home (Some "u-alice")) 10 0 None
           (Sample.feed (Some "u-alice"))).
  - vm_compute. reflexivity.
  - vm_compute. discriminate.
Defined.

Lemma getPosts_without_viewer_witness :
  let r := run Sample.platform (postsApi.getPosts 10 0 None)
             (Sample.home None) in
  viewer_of r.1.2 = None
  ∧ issued is_viewer_likes_query r.1.2 = 0%nat
  ∧ Forall (λ p, is_liked p = false) (Sample.feed None).
Proof.
  split; [vm_compute; reflexivity|].
  destruct (getPosts_without_viewer Sample.platform (Sample.home None)
              10 0 None) as [Hnone Hposts].
  - vm_compute. reflexivity.
  - split; [exact Hnone|]. apply Hposts. vm_compute. reflexivity.
Defined.

Lemma getPosts_empty_page_witness :
  let r := run Sample.platform (postsApi.getPosts 10 50 None)
             (Sample.home (Some "u-alice")) in
  posts_response r.1.2 = Some (Supabase.ok [])
  ∧ r.1.1 = Returned []
  ∧ issued is_likes_query r.1.2 = 0%nat
  ∧ issued is_comments_query r.1.2 = 0%nat
  ∧ issued is_viewer_likes_query r.1.2 = 0%nat.
Proof.
  split; [vm_compute; reflexivity|].
  apply (getPosts_empty_page Sample.platform (Sample.home (Some "u-alice"))
           10 50 None (Supabase.ok [])).
  - vm_compute. reflexivity.
  - reflexivity.
  - reflexivity.
Defined.

Lemma handleLike_optimistic_then_reverts_witness :
  let st := PostCard.mount Sample.card in
  let offline := stateless (rejecting Sample.offline) in
  let idle := {| PostCard.cells := st; PostCard.inflight := [];
                 PostCard.platform := () |} in
  let pending :=
    PostCard.step offline Sample.card idle
      (PostCard.Click (Some Sample.signed_in)) in
  let settled :=
    PostCard.step offline Sample.card pending (PostCard.Settle 0) in
  PostCard.isLiking st = false
  ∧ (PostCard.isLiked (PostCard.cells pending) = true
     ∧ PostCard.likesCount (PostCard.cells pending) = 2)
  ∧ (PostCard.isLiked (PostCard.cells settled) = false
     ∧ PostCard.likesCount (PostCard.cells settled) = 1).
Proof.
  intros st offline idle pending settled.
  split; [reflexivity|].
  destruct (handleLike_optimistic_then_reverts offline () Sample.signed_in
              Sample.card st eq_refl) as (Hlike & _ & Hrevert).
  split.
  - destruct (Hlike eq_refl) as (Hflag & Hcount & _).
    split; [exact Hflag | exact Hcount].
  - destruct (Hrevert _ Sample.offline eq_refl eq_refl) as (Hflag & Hcount & _).
    split; [exact Hflag | exact Hcount].
Defined.

Lemma handleLike_one_in_flight_witness :
  let evs := [PostCard.Click (Some Sample.signed_in);
              PostCard.Click (Some Sample.signed_in);
              PostCard.Click None] in
  let c := foldl (PostCard.step Sample.platform Sample.card)
             (PostCard.start Sample.card (Sample.home (Some "u-alice")))
             evs in
  PostCard.inflight c ≠ []
  ∧ (length (PostCard.inflight c) ≤ 1)%nat
  ∧ PostCard.step Sample.platform Sample.card c
      (PostCard.Click (Some Sample.signed_in)) = c.
Proof.
  intros evs c.
  assert (PostCard.inflight c ≠ []) as Hbusy by (vm_compute; discriminate).
  split; [exact Hbusy|].
  destruct (handleLike_one_in_flight Sample.platform Sample.card
              (Sample.home (Some "u-alice")) evs) as [Hone Hnoop].
  split; [exact Hone|].
  exact (proj2 (Hnoop Hbusy (Some Sample.signed_in))).
Defined.

Lemma no_self_follow_created_witness :
  Profile.follow_click Sample.platform Sample.own_page
    Sample.own_page_cells (Sample.home (Some "u-alice"))
  = (Sample.own_page_cells, [], Sample.home (Some "u-alice"))
  ∧ Supabase.no_self_follow
      (run Sample.platform (followsApi.followUser "u-alice" "u-bob")
         (Sample.home (Some "u-alice"))).2.
Proof.
  destruct no_self_follow_created as (_ & Hown & _ & Hkeeps).
  split.
  - apply (Hown _ Sample.platform Sample.own_page Sample.own_page_cells
             (Sample.home (Some "u-alice")) Sample.signed_in Sample.alice);
      reflexivity.
  - apply (Hkeeps (rejecting Sample.offline)). vm_compute. constructor.
Defined.


Lemma comment_thread_oldest_first_witness :
  CommentsDialog.texts
    (CommentsDialog.open_and_render Sample.platform (Some Sample.signed_in)
       "p-1" (Sample.home None))
  = ["A"; "B"; "C"].
Proof.
  destruct comment_thread_oldest_first as [_ Hsample].
  apply (Hsample [Sample.commentC; Sample.other_comment; Sample.commentA;
                  Sample.commentB]).
  symmetry. apply permutations_Permutation. vm_compute.
  repeat first [ apply list_elem_of_here | apply list_elem_of_further ].
Defined.

Lemma unlike_unfollow_idempotent_witness :
  let w := Sample.home (Some "u-alice") in
  (run Sample.platform (likesApi.unlikePost "p-1" "u-alice") w).2 = w
  ∧ (run Sample.platform (followsApi.unfollowUser "u-alice" "u-bob") w).2 = w.
Proof.
  intros w.
  destruct (unlike_unfollow_idempotent (rejecting Sample.offline) w
              "p-1" "u-alice") as [(_ & _ & _ & Hlikes) _].
  destruct (unlike_unfollow_idempotent (rejecting Sample.offline) w
              "u-alice" "u-bob") as [_ (_ & _ & _ & Hfollows)].
  split.
  - apply Hlikes. apply (bool_decide_unpack _). vm_compute. exact I.
  - apply Hfollows. vm_compute. constructor.
Defined.

(** * More properties of the client *)

(** ** Feed aggregation: failures and pages *)

(** X1: [getPosts] always asks for the page of posts, and it fails exactly
    when that query reports an error, with that error; whatever the batched
    likes, comments and viewer-likes queries answer, it then returns one
    decorated post per fetched row. *)
Theorem getPosts_fails_with_posts_query {S} (h : Handler S) (s : S)
    (limit offset : Z) (userId : option string) :
  let r := run h (postsApi.getPosts limit offset userId) s in
  ∃ res,
    posts_response r.1.2 = Some res
    ∧ match error res with
      | Some e => r.1.1 = Thrown e
      | None =>
          ∃ posts, r.1.1 = Returned posts
                   ∧ row <$> posts = data res ||| []
      end.
Proof.
  intros r. subst r. getPosts_paths h.
  all: cbn -[fmap]; eexists; split; [reflexivity|]; cbn -[fmap]; try done.
  all: eexists; split; [reflexivity|]; try done.
  all: by apply fmap_section.
Qed.

Section FeedPages.
Import Supabase Tables.

Lemma StronglySorted_sublist {A} (R : relation A) (l l' : list A) :
  l' `sublist_of` l → StronglySorted R l → StronglySorted R l'.
Proof.
  induction 1 as [|x l1 l2 Hsub IH|x l1 l2 Hsub IH]; intros Hl.
  - done.
  - apply StronglySorted_inv in Hl as [Hl Hx]. constructor; [by apply IH|].
    apply Forall_forall. intros y Hy. rewrite Forall_forall in Hx.
    apply Hx. by eapply elem_of_sublist.
  - apply StronglySorted_inv in Hl as [Hl _]. by apply IH.
Qed.

Lemma range_sublist {A} (from to : Z) (rows : list A) :
  range from to rows `sublist_of` rows.
Proof.
  unfold range. etrans; [apply sublist_take | apply sublist_drop].
Qed.

(** On the platform [getPosts] returns, leaves the tables alone, and its
    rows are the page the posts query selects. *)
Lemma getPosts_rows_on_platform other (w : World) (limit offset : Z)
    (userId : option string) :
  ∃ posts,
    (run (supabase other) (postsApi.getPosts limit offset userId) w).1.1
      = Returned posts
    ∧ (run (supabase other) (postsApi.getPosts limit offset userId) w).2 = w
    ∧ row <$> posts
      = select_posts_page w offset (offset + limit - 1)
          (if truthy userId then userId else None).
Proof.
  unfold postsApi.getPosts.
  cbn [mbind Prog_bind bind await run supabase ok error data].
  destruct (select_posts_page w offset (offset + limit - 1)
              (if truthy userId then userId else None)) as [|r l] eqn:Hpage.
  { cbn. by exists []. }
  destruct (truthy (auth_uid w)) eqn:Hviewer.
  all: cbn [mbind Prog_bind bind await run supabase ok error data fst snd].
  all: eexists; split_and!; [reflexivity | reflexivity |].
  all: by apply fmap_section.
Qed.

(** X2: on the platform, [getPosts(limit, offset, userId)] returns at most
    [limit] posts, newest first, each a row of the posts table with its
    owner's profile attached, and only posts of [userId] when a non-empty
    [userId] is given. *)
Theorem getPosts_page_on_platform other (w : World) (limit offset : Z)
    (userId : option string) (posts : list Post) :
  0 ≤ offset → 0 < limit →
  (run (supabase other) (postsApi.getPosts limit offset userId) w).1.1
    = Returned posts →
  (length posts ≤ Z.to_nat limit)%nat
  ∧ StronglySorted post_newer (row <$> posts)
  ∧ Forall (λ p, ∃ q, q ∈ Supabase.posts (db w)
                      ∧ row p = with_post_profile w q) posts
  ∧ (∀ u, userId = Some u → u ≠ EmptyString →
          Forall (λ p, Posts.user_id (row p) = u) posts).
Proof.
  intros Hoffset Hlimit Hrun.
  destruct (getPosts_rows_on_platform other w limit offset userId)
    as (posts' & Hrun' & _ & Hrows).
  rewrite Hrun in Hrun'. injection Hrun' as <-.
  unfold select_posts_page in Hrows.
  set (rows := match (if truthy userId then userId else None) with
               | Some u => filter (λ p, Posts.user_id p = u) (Supabase.posts (db w))
               | None => Supabase.posts (db w)
               end) in Hrows.
  assert (∀ q, q ∈ range offset (offset + limit - 1) (merge_sort post_newer rows)
               → q ∈ rows) as Hin.
  { intros q Hq. eapply elem_of_sublist in Hq; [|apply range_sublist].
    by rewrite merge_sort_Permutation in Hq. }
  assert (rows ⊆ Supabase.posts (db w)) as Hsub.
  { subst rows. destruct (if truthy userId then userId else None);
      [|done]. intros q Hq. by apply list_elem_of_filter in Hq as [_ ?]. }
  split_and!.
  - assert (length posts = length (row <$> posts)) as ->
      by (by rewrite length_fmap).
    rewrite Hrows, length_fmap. unfold range.
    rewrite length_take. replace (offset + limit - 1 - offset + 1) with limit
      by lia. lia.
  - rewrite Hrows.
    apply (StronglySorted_fmap _ post_newer post_newer); [by intros ??|].
    eapply StronglySorted_sublist; [apply range_sublist|].
    apply StronglySorted_merge_sort; apply _.
  - apply Forall_forall. intros p Hp.
    assert (row p ∈ row <$> posts) as Hrow by (by apply list_elem_of_fmap_2).
    rewrite Hrows in Hrow. apply list_elem_of_fmap in Hrow as (q & Hq & Hqin).
    exists q. split; [|done]. apply Hsub, Hin, Hqin.
  - intros u -> Hu. apply Forall_forall. intros p Hp.
    assert (row p ∈ row <$> posts) as Hrow by (by apply list_elem_of_fmap_2).
    rewrite Hrows in Hrow. apply list_elem_of_fmap in Hrow as (q & -> & Hqin).
    apply Hin in Hqin. subst rows. cbn [truthy] in Hqin.
    destruct (String.eqb_spec u EmptyString) as [?|_]; [done|]. cbn in Hqin.
    by apply list_elem_of_filter in Hqin as [? _].
Qed.

End FeedPages.

(** X3: [getPost] fails exactly when the lookup of the post reports an
    error, with that error, and then asks nothing else.  Otherwise it asks
    for the viewer and the two counts and returns the post's row with
    [likes_count] and [comments_count] as the two count queries answered
    ([0] when a count is missing), whatever errors they report.  With a
    viewer of a non-empty id it then looks up that viewer's like of the
    post, and [is_liked] tells whether the lookup came back with data,
    whatever error it reports; without one it sends no such lookup and
    [is_liked] is [false]. *)
Theorem getPost_fails_with_post_lookup {S} (h : Handler S) (s : S)
    (postId : string) :
  let res := h _ (SelectPostById postId) s in
  let r := run h (postsApi.getPost postId) s in
  match error res.1 with
  | Some e => r.1.1 = Thrown e ∧ r.1.2 = [Ev (SelectPostById postId) res.1]
  | None =>
      let viewer := h _ AuthGetUser res.2 in
      let likes := h _ (CountLikesOf postId) viewer.2 in
      let comments := h _ (CountCommentsOf postId) likes.2 in
      let asked :=
        [Ev (SelectPostById postId) res.1; Ev AuthGetUser viewer.1;
         Ev (CountLikesOf postId) likes.1;
         Ev (CountCommentsOf postId) comments.1] in
      ∃ post,
        r.1.1 = Returned post
        ∧ row post = data res.1
        ∧ likes_count post
          = match count likes.1 with Some n => n | None => 0%nat end
        ∧ comments_count post
          = match count comments.1 with Some n => n | None => 0%nat end
        ∧ match viewer.1 with
          | Some (String _ _ as u) =>
              let like := h _ (SelectLikeId postId u) comments.2 in
              is_liked post
                = match data like.1 with Some _ => true | None => false end
              ∧ r.1.2 = asked ++ [Ev (SelectLikeId postId u) like.1]
          | _ => is_liked post = false ∧ r.1.2 = asked
          end
  end.
Proof.
  intros res r. subst res r. unfold postsApi.getPost.
  cbn [mbind Prog_bind bind await run].
  destruct (h _ (SelectPostById postId) s) as [[d [e|]] s1];
    cbn [fst snd error data run]; [done|].
  destruct (h _ AuthGetUser s1) as [cu s2].
  cbn [mbind Prog_bind bind await run fst snd].
  destruct (h _ (CountLikesOf postId) s2) as [likes s3].
  cbn [mbind Prog_bind bind await run fst snd].
  destruct (h _ (CountCommentsOf postId) s3) as [comments s4].
  cbn [mbind Prog_bind bind await run fst snd].
  destruct cu as [[|a u]|]; cbn [truthy String.eqb negb default from_option id].
  - cbn. eexists. split_and!; reflexivity.
  - cbn [mbind Prog_bind bind await run fst snd].
    destruct (h _ (SelectLikeId postId (String a u)) s4) as [like s5].
    cbn. eexists. split_and!; try reflexivity.
    by destruct (data like).
  - cbn. eexists. split_and!; reflexivity.
Qed.

(** ** Likes and follows on the platform *)

Section LikesAndFollows.
Import Supabase Tables.

Lemma filter_nil_not_Exists {A} (P : A → Prop) `{∀ x, Decision (P x)}
    (l : list A) :
  ¬ Exists P l → filter P l = [].
Proof.
  intros Hnone. induction l as [|x l IH]; [done|].
  rewrite filter_cons. destruct (decide (P x)) as [HP|HP].
  - destruct Hnone. by left.
  - apply IH. intros Hex. apply Hnone. by right.
Qed.

Lemma NoDup_fmap_filter {A B} (f : A → B) (P : A → Prop)
    `{∀ x, Decision (P x)} (l : list A) :
  NoDup (f <$> l) → NoDup (f <$> filter P l).
Proof.
  intros Hl. eapply sublist_NoDup; [exact Hl|].
  apply fmap_sublist, sublist_filter.
Qed.

(** Under a unique key, the rows with that key are one row or none. *)
Lemma filter_key_unique {A K} (key : A → K) (P : A → Prop)
    `{∀ x, Decision (P x)} (k : K) (l : list A) :
  (∀ x, P x ↔ key x = k) →
  NoDup (key <$> l) →
  filter P l = [] ∨ ∃ x, filter P l = [x].
Proof.
  intros HP. induction l as [|x l IH]; [by left|].
  rewrite fmap_cons, NoDup_cons. intros [Hx Hl].
  rewrite filter_cons. destruct (decide (P x)) as [Hk|Hk]; [|by apply IH].
  right. exists x. f_equal. apply filter_nil_not_Exists.
  rewrite Exists_exists. intros (y & Hy & HPy).
  apply Hx. apply HP in Hk, HPy. rewrite Hk, <- HPy.
  by apply list_elem_of_fmap_2.
Qed.

Lemma like_matches_key (p u : string) (l : Likes.row) :
  like_matches p u l ↔ (Likes.post_id l, Likes.user_id l) = (p, u).
Proof. unfold like_matches. split; [by intros [-> ->] | by intros [= -> ->]]. Qed.

Lemma follow_matches_key (a b : string) (f : Follows.row) :
  follow_matches a b f
  ↔ (Follows.follower_id f, Follows.following_id f) = (a, b).
Proof.
  unfold follow_matches. split; [by intros [-> ->] | by intros [= -> ->]].
Qed.

(** X4: after a [likePost] that the platform accepted, [isLiked] answers
    [true] for the same post and user, and a second [likePost] is refused
    as a duplicate and leaves the tables as they are. *)
Theorem likePost_then_isLiked other (w : World) (p u : string) :
  let liked := run (supabase other) (likesApi.likePost p u) w in
  liked.1.1 = Returned () →
  (run (supabase other) (likesApi.isLiked p u) liked.2).1.1 = Returned true
  ∧ (run (supabase other) (likesApi.likePost p u) liked.2).1.1
    = Thrown unique_violation
  ∧ (run (supabase other) (likesApi.likePost p u) liked.2).2 = liked.2.
Proof.
  unfold likesApi.likePost, likesApi.isLiked.
  cbn [mbind Prog_bind bind await run supabase]. unfold insert_like.
  destruct (bool_decide (auth_uid w = Some u)) eqn:Hrls; cbn; [|done].
  destruct (bool_decide (Exists (like_matches p u) (likes (db w))))
    eqn:Hdup; cbn; [done|].
  destruct (has_post w p && has_profile w u); cbn; [|done].
  intros _. apply bool_decide_eq_false in Hdup.
  rewrite Hrls. cbn.
  rewrite filter_app, (filter_nil_not_Exists _ _ Hdup).
  rewrite (filter_cons (like_matches p u)), decide_True by done. cbn.
  rewrite (bool_decide_true (Exists _ _)); [done|].
  apply Exists_app. right. by left.
Qed.

(** X5: after an [unlikePost] by the signed-in user for themselves, no like
    row of theirs is left for the post, and [isLiked] answers [false]. *)
Theorem unlikePost_then_isLiked other (w : World) (p u : string) :
  auth_uid w = Some u →
  let unliked := run (supabase other) (likesApi.unlikePost p u) w in
  unliked.1.1 = Returned ()
  ∧ ¬ Exists (like_matches p u) (likes (db unliked.2))
  ∧ (run (supabase other) (likesApi.isLiked p u) unliked.2).1.1
    = Returned false.
Proof.
  intros Hu. unfold likesApi.unlikePost, likesApi.isLiked.
  cbn [mbind Prog_bind bind await run supabase]. cbn.
  assert (¬ Exists (like_matches p u)
            (filter (λ l, ¬ (like_matches p u l
                             ∧ auth_uid w = Some (Likes.user_id l)))
               (likes (db w)))) as Hgone.
  { rewrite Exists_exists. intros (l & Hl & Hm).
    apply list_elem_of_filter in Hl as [Hkeep _]. apply Hkeep.
    split; [done|]. destruct Hm as [_ ->]. done. }
  split_and!; [done | done |].
  by rewrite (filter_nil_not_Exists _ _ Hgone).
Qed.

(** X6: the same round trips for follows: after a [followUser] that the
    platform accepted, [isFollowing] answers [true] and a second
    [followUser] is refused as a duplicate; after an [unfollowUser] by the
    signed-in follower, [isFollowing] answers [false]. *)
Theorem follow_then_isFollowing other (w : World) (a b : string) :
  (let followed := run (supabase other) (followsApi.followUser a b) w in
   followed.1.1 = Returned () →
   (run (supabase other) (followsApi.isFollowing a b) followed.2).1.1
     = Returned true
   ∧ (run (supabase other) (followsApi.followUser a b) followed.2).1.1
     = Thrown unique_violation
   ∧ a ≠ b)
  ∧ (auth_uid w = Some a →
     let unfollowed := run (supabase other) (followsApi.unfollowUser a b) w in
     unfollowed.1.1 = Returned ()
     ∧ (run (supabase other) (followsApi.isFollowing a b) unfollowed.2).1.1
       = Returned false).
Proof.
  split.
  - unfold followsApi.followUser, followsApi.isFollowing.
    cbn [mbind Prog_bind bind await run supabase]. unfold insert_follow.
    destruct (bool_decide (auth_uid w = Some a)) eqn:Hrls; cbn; [|done].
    destruct (bool_decide (a = b)) eqn:Hself; cbn; [done|].
    destruct (bool_decide (Exists (follow_matches a b) (follows (db w))))
      eqn:Hdup; cbn; [done|].
    destruct (has_profile w a && has_profile w b); cbn; [|done].
    intros _. apply bool_decide_eq_false in Hdup, Hself.
    rewrite ?Hrls. cbn.
    rewrite filter_app, (filter_nil_not_Exists _ _ Hdup).
    rewrite (filter_cons (follow_matches a b)), decide_True by done. cbn.
    rewrite (bool_decide_true (Exists _ _)); [done|].
    apply Exists_app. right. by left.
  - intros Ha. unfold followsApi.unfollowUser, followsApi.isFollowing.
    cbn [mbind Prog_bind bind await run supabase]. cbn.
    split; [done|].
    rewrite filter_nil_not_Exists; [done|].
    rewrite Exists_exists. intros (f & Hf & Hm).
    apply list_elem_of_filter in Hf as [Hkeep _]. apply Hkeep.
    split; [done|]. destruct Hm as [-> _]. done.
Qed.

(** X7: acting on behalf of somebody other than the signed-in user.  A
    [likePost] or [followUser] is refused by the insert policy: the call
    throws the policy's error.  An [unlikePost] or [unfollowUser] returns
    without an exception although it deletes nothing: the delete policies
    hide the rows, and the data-access layer reports success.  In all four
    cases one request is sent and the tables are as before. *)
Theorem acting_for_another_user other (w : World) (x v : string) :
  auth_uid w ≠ Some v →
  run (supabase other) (likesApi.likePost x v) w
    = (Thrown rls_violation, [Ev (InsertLike x v) (failed rls_violation)], w)
  ∧ run (supabase other) (followsApi.followUser v x) w
    = (Thrown rls_violation, [Ev (InsertFollow v x) (failed rls_violation)], w)
  ∧ run (supabase other) (likesApi.unlikePost x v) w
    = (Returned (), [Ev (DeleteLike x v) no_content], w)
  ∧ run (supabase other) (followsApi.unfollowUser v x) w
    = (Returned (), [Ev (DeleteFollow v x) no_content], w).
Proof.
  intros Hv. split_and!.
  - unfold likesApi.likePost.
    cbn [mbind Prog_bind bind await run supabase]. unfold insert_like.
    by rewrite bool_decide_eq_false_2.
  - unfold followsApi.followUser.
    cbn [mbind Prog_bind bind await run supabase]. unfold insert_follow.
    by rewrite bool_decide_eq_false_2.
  - destruct w as [[pr po li co fo] uid seq]. cbn in Hv.
    unfold likesApi.unlikePost.
    cbn [mbind Prog_bind bind await run supabase]. cbn.
    unfold set_likes. cbn.
    rewrite filter_none; [done|].
    apply Forall_forall. intros l _ Hboth. destruct Hboth as [[_ Hl] Hu].
    apply Hv. by rewrite Hu, Hl.
  - destruct w as [[pr po li co fo] uid seq]. cbn in Hv.
    unfold followsApi.unfollowUser.
    cbn [mbind Prog_bind bind await run supabase]. cbn.
    unfold set_follows. cbn.
    rewrite filter_none; [done|].
    apply Forall_forall. intros f _ Hboth. destruct Hboth as [[Hf _] Hu].
    apply Hv. by rewrite Hu, Hf.
Qed.

Lemma supabase_keeps_consistent other X (r : Request X) (w : World) :
  consistent w → consistent (supabase other X r w).2.
Proof.
  intros (Hlikes & Hfollows & Hself). destruct r; cbn [supabase snd]; try done.
  - (* InsertLike *)
    unfold insert_like. repeat (case_match; cbn [snd]; try done).
    split_and!; [|done..]. unfold likes_unique. cbn.
    rewrite fmap_app. apply NoDup_app. split_and!; [done| |apply NoDup_singleton].
    intros k Hk Hin. apply list_elem_of_singleton in Hin as ->. cbn in Hk.
    match goal with H : bool_decide (Exists _ _) = false |- _ =>
      apply bool_decide_eq_false in H; apply H end.
    apply list_elem_of_fmap in Hk as (l & Hkey & Hl).
    apply Exists_exists. exists l. split; [done|].
    by apply like_matches_key.
  - (* DeleteLike *)
    split_and!; [|done..]. unfold likes_unique. cbn.
    by apply NoDup_fmap_filter.
  - (* InsertFollow *)
    pose proof (insert_follow_keeps_no_self_follow w followerId followingId
                  Hself) as Hkeep.
    unfold insert_follow in *.
    repeat (case_match; cbn [snd] in *; try done).
    split_and!; [done| |done].
    unfold follows_unique. cbn.
    rewrite fmap_app. apply NoDup_app. split_and!; [done| |apply NoDup_singleton].
    intros k Hk Hin. apply list_elem_of_singleton in Hin as ->. cbn in Hk.
    match goal with H : bool_decide (Exists _ _) = false |- _ =>
      apply bool_decide_eq_false in H; apply H end.
    apply list_elem_of_fmap in Hk as (f & Hkey & Hf).
    apply Exists_exists. exists f. split; [done|].
    by apply follow_matches_key.
  - (* DeleteFollow *)
    split_and!; [done| |].
    + unfold follows_unique. cbn. by apply NoDup_fmap_filter.
    + unfold no_self_follow in *. cbn. rewrite Forall_forall in Hself |- *.
      intros f Hf. apply Hself. by apply list_elem_of_filter in Hf as [_ ?].
Qed.

(** X8: whatever program of the client runs against the platform, be it one
    call of the data-access layer or a whole handler, the constraints of the
    likes and follows tables hold afterwards if they held before: at most
    one like per post and user, at most one follow per pair, no follow of
    oneself. *)
Theorem programs_keep_tables_consistent other {A} (p : Prog A) (w : World) :
  consistent w → consistent (run (supabase other) p w).2.
Proof.
  revert w. induction p as [a|e|X r k IH]; intros w Hw; cbn; [done..|].
  pose proof (supabase_keeps_consistent other X r w Hw) as Hstep.
  destruct (supabase other X r w) as [x w1]. cbn in Hstep.
  specialize (IH x w1 Hstep).
  by destruct (run (supabase other) (k x) w1) as [[o t] w2].
Qed.

(** X9: while likes are unique per post and user, [isLiked] answers exactly
    whether the likes table has a row for the post and the user; likewise
    [isFollowing] for the follows table.  Neither throws. *)
Theorem lookups_are_exact other (w : World) (x y : string) :
  consistent w →
  (run (supabase other) (likesApi.isLiked x y) w).1.1
    = Returned (bool_decide (Exists (like_matches x y) (likes (db w))))
  ∧ (run (supabase other) (followsApi.isFollowing x y) w).1.1
    = Returned (bool_decide (Exists (follow_matches x y) (follows (db w)))).
Proof.
  intros (Hlikes & Hfollows & _).
  unfold likesApi.isLiked, followsApi.isFollowing.
  cbn [mbind Prog_bind bind await run supabase]. split.
  - destruct (filter_key_unique _ (like_matches x y) (x, y) (likes (db w))
                (like_matches_key x y) Hlikes) as [Hnone | [l Hone]].
    + rewrite Hnone. cbn. rewrite bool_decide_false; [done|].
      rewrite Exists_exists. intros (l & Hl & Hm).
      by eapply filter_nil_not_elem_of.
    + rewrite Hone. cbn. rewrite bool_decide_true; [done|].
      rewrite Exists_exists. exists l.
      assert (l ∈ filter (like_matches x y) (likes (db w))) as Hl
        by (rewrite Hone; by left).
      by apply list_elem_of_filter in Hl as [? ?].
  - destruct (filter_key_unique _ (follow_matches x y) (x, y) (follows (db w))
                (follow_matches_key x y) Hfollows) as [Hnone | [f Hone]].
    + rewrite Hnone. cbn. rewrite bool_decide_false; [done|].
      rewrite Exists_exists. intros (f & Hf & Hm).
      by eapply filter_nil_not_elem_of.
    + rewrite Hone. cbn. rewrite bool_decide_true; [done|].
      rewrite Exists_exists. exists f.
      assert (f ∈ filter (follow_matches x y) (follows (db w))) as Hf
        by (rewrite Hone; by left).
      by apply list_elem_of_filter in Hf as [? ?].
Qed.

End LikesAndFollows.

(** ** The optimistic like and the feed *)

Section OptimisticLike.
Import Supabase Tables PostCard.



End OptimisticLike.

(** ** The follow button of [Profile] *)

Section FollowButton.
Import Profile.

Lemma handleFollow_accepts (env : Env) (st : State) (u : Auth.User)
    (p : Profiles.row) :
  user env = Some u → profile st = Some p → isOwnProfile env st = false →
  ∃ k,
    handleFollow env st =
      (setFollowersCount
         (if isFollowing st then followersCount st - 1
          else followersCount st + 1)
         (setIsFollowing (negb (isFollowing st)) st),
       Some k)
    ∧ awaiting k =
        (if isFollowing st
         then followsApi.unfollowUser (Auth.id u) (Profiles.id p)
         else followsApi.followUser (Auth.id u) (Profiles.id p))
    ∧ (∀ cur, resume k (Returned ()) cur = cur)
    ∧ (∀ e cur, resume k (Thrown e) cur =
         setFollowersCount (followersCount st)
           (setIsFollowing (isFollowing st) cur)).
Proof.
  intros Hu Hp Hown. unfold handleFollow. rewrite Hu, Hp, Hown.
  eexists. split; [reflexivity|]. cbn. done.
Qed.

(** X11: a click on the follow button of somebody else's profile flips the
    follow flag and moves the followers counter by exactly 1 at once, and
    sends [followUser] (from not following) or [unfollowUser] (from
    following) for the pair viewer, profile.  When the request succeeds the
    cells stay; when it fails, flag and counter are set back to the values
    captured before the click. *)
Theorem handleFollow_optimistic_then_reverts {S} (h : Handler S) (s : S)
    (env : Env) (st : State) (u : Auth.User) (p : Profiles.row) :
  user env = Some u → profile st = Some p → isOwnProfile env st = false →
  ∃ st1 k,
    handleFollow env st = (st1, Some k)
    ∧ isFollowing st1 = negb (isFollowing st)
    ∧ followersCount st1
      = (if isFollowing st then followersCount st - 1
         else followersCount st + 1)
    ∧ awaiting k =
        (if isFollowing st
         then followsApi.unfollowUser (Auth.id u) (Profiles.id p)
         else followsApi.followUser (Auth.id u) (Profiles.id p))
    ∧ match (run h (awaiting k) s).1.1 with
      | Returned _ => (follow_click h env st s).1.1 = st1
      | Thrown _ =>
          isFollowing (follow_click h env st s).1.1 = isFollowing st
          ∧ followersCount (follow_click h env st s).1.1 = followersCount st
      end.
Proof.
  intros Hu Hp Hown.
  destruct (handleFollow_accepts env st u p Hu Hp Hown)
    as (k & Hk & Hawait & Hok & Hfail).
  eexists _, k. split; [exact Hk|]. split_and!; [done..|].
  unfold follow_click. rewrite Hk.
  destruct (run h (awaiting k) s) as [[[[]|e] t] s']; cbn.
  - by rewrite Hok.
  - by rewrite Hfail.
Qed.

(** X12: the follow button has no pending guard.  A second click while the
    request of the first is still in flight is accepted: it sends the
    opposite request, and the cells show the flag and the counter of before
    the first click again. *)
Theorem handleFollow_accepts_while_pending (env : Env) (st : State)
    (u : Auth.User) (p : Profiles.row) :
  user env = Some u → profile st = Some p → isOwnProfile env st = false →
  ∃ st1 k1 st2 k2,
    handleFollow env st = (st1, Some k1)
    ∧ handleFollow env st1 = (st2, Some k2)
    ∧ awaiting k1 =
        (if isFollowing st
         then followsApi.unfollowUser (Auth.id u) (Profiles.id p)
         else followsApi.followUser (Auth.id u) (Profiles.id p))
    ∧ awaiting k2 =
        (if isFollowing st
         then followsApi.followUser (Auth.id u) (Profiles.id p)
         else followsApi.unfollowUser (Auth.id u) (Profiles.id p))
    ∧ isFollowing st2 = isFollowing st
    ∧ followersCount st2 = followersCount st.
Proof.
  intros Hu Hp Hown.
  destruct (handleFollow_accepts env st u p Hu Hp Hown)
    as (k1 & Hk1 & Hawait1 & _).
  set (st1 := setFollowersCount
                (if isFollowing st then followersCount st - 1
                 else followersCount st + 1)
                (setIsFollowing (negb (isFollowing st)) st)) in *.
  assert (isOwnProfile env st1 = false) as Hown1.
  { unfold isOwnProfile in *. cbn. done. }
  destruct (handleFollow_accepts env st1 u p Hu Hp Hown1)
    as (k2 & Hk2 & Hawait2 & _).
  eexists st1, k1, _, k2. split_and!; [done | exact Hk2 | done | | |].
  - rewrite Hawait2. subst st1. cbn. by destruct (isFollowing st).
  - subst st1. cbn. by destruct (isFollowing st).
  - subst st1. cbn. destruct (isFollowing st); cbn; lia.
Qed.

End FollowButton.

(** ** Deleting a post from its card *)

Section DeleteEntry.
Import PostCardActions.

(** X13: the delete entry of a card sends one [deletePost] for the card's
    post, and only when the viewer owns the post, an [onDelete] callback was
    passed and the viewer confirmed; it never retries.  [onDelete] is called
    exactly when the request came back without an error; when it came back
    with one, the viewer gets an alert and [onDelete] is not called. *)
Theorem handleDelete_reports {S} (h : Handler S) (s : S)
    (user : option Auth.User) (post : Post) (onDelete confirmed : bool) :
  let r := delete_click h user post onDelete confirmed s in
  let effects := r.1.1 in
  let t := r.1.2 in
  let res := (h _ (DeletePost (Posts.id (row post))) s).1 in
  if isOwnPost user post && onDelete && confirmed then
    t = [Ev (DeletePost (Posts.id (row post))) res]
    ∧ match error res with
      | None => effects = [Callback "onDelete"]
      | Some _ =>
          effects = [ConsoleError "Error deleting post:";
                     Alert "Failed to delete post"]
      end
  else t = [] ∧ effects = [] ∧ r.2 = s.
Proof.
  intros r effects t res. subst r effects t res.
  unfold delete_click, handleDelete.
  destruct (isOwnPost user post), onDelete, confirmed; cbn; try done.
  unfold settle_on, postsApi.deletePost.
  cbn [request mbind Prog_bind bind await run].
  by destruct (h _ (DeletePost (Posts.id (row post))) s) as [[d [e|]] s'].
Qed.

End DeleteEntry.

(** ** The feed page *)

Section FeedPage.
Import Supabase Tables Feed.

Lemma finish_load_on_platform other (w : World) (k : Z) (reset : bool)
    (st : State) :
  0 ≤ k →
  ∃ newPosts,
    row <$> newPosts
      = with_post_profile w
          <$> take 10 (drop (Z.to_nat k * 10) (newest_first w))
    ∧ finish (supabase other) (loadPosts k reset) (st, w)
      = (setLoading false
           (setHasMore (bool_decide (length newPosts = 10%nat))
              (if reset then setPosts newPosts st
               else setPosts (posts st ++ newPosts) st)),
         w).
Proof.
  intros Hk. unfold finish, settle_on, loadPosts. cbn [request settle fst snd].
  destruct (getPosts_rows_on_platform other w postsPerPage (k * postsPerPage)
              None) as (newPosts & Hret & Hw & Hrows).
  destruct (run (supabase other)
              (postsApi.getPosts postsPerPage (k * postsPerPage) None) w)
    as [[o t] w'].
  cbn in Hret, Hw. subst o w'. exists newPosts. split.
  - rewrite Hrows. unfold select_posts_page, range, postsPerPage, newest_first.
    cbn [truthy].
    replace (Z.to_nat (k * 10 + 10 - 1 - k * 10 + 1)) with 10%nat by lia.
    replace (Z.to_nat (k * 10)) with (Z.to_nat k * 10)%nat by lia. done.
  - f_equal. unfold postsPerPage.
    assert (bool_decide (Z.of_nat (length newPosts) = 10)
            = bool_decide (length newPosts = 10%nat)) as ->.
    { apply bool_decide_ext. lia. }
    by destruct reset.
Qed.

(** X14: on a platform whose posts do not change meanwhile, opening the feed
    and reaching the end of the list [n] times shows exactly the first
    [10 * (n + 1)] posts of the table in newest-first order, each once;
    nothing is skipped and nothing is shown twice.  The feed asks for more
    afterwards exactly when the last page was full, that is when the table
    has at least [10 * (n + 1)] posts. *)
Theorem feed_scroll_shows_prefix other (w : World) (n : nat) :
  let c := scroll (supabase other) w n in
  c.2 = w
  ∧ row <$> posts c.1
    = with_post_profile w <$> take (10 * S n) (newest_first w)
  ∧ page c.1 = Z.of_nat n
  ∧ loading c.1 = false
  ∧ (hasMore c.1 = true
     ↔ (10 * S n ≤ length (Supabase.posts (db w)))%nat).
Proof.
  assert (length (newest_first w) = length (Supabase.posts (db w))) as Hlen.
  { apply Permutation_length, merge_sort_Permutation. }
  induction n as [|n IH]; cbn zeta.
  - unfold scroll, open. cbn [Nat.iter nat_rect].
    destruct (finish_load_on_platform other w 0 true mount)
      as (newPosts & Hrows & ->); [lia|].
    cbn [fst snd posts page loading hasMore setLoading setHasMore setPosts
         mount].
    change (Z.to_nat 0 * 10)%nat with 0%nat in Hrows. rewrite drop_0 in Hrows.
    split_and!; [done | done | done | done |].
    rewrite bool_decide_eq_true.
    assert (length newPosts = length (row <$> newPosts)) as ->
      by (by rewrite length_fmap).
    rewrite Hrows, length_fmap, length_take. lia.
  - cbn zeta in IH. destruct IH as (Hw & Hshown & Hpage & Hloading & Hmore).
    unfold scroll in *. rewrite Nat.iter_succ.
    destruct (Nat.iter n (scroll_once (supabase other))
                (open (supabase other) w)) as [st w'].
    cbn [fst snd] in *. subst w'.
    change (scroll_once (supabase other) (st, w))
      with (finish (supabase other) (loadPosts (page st + 1) false)
              (setPage (page st + 1) st, w)).
    destruct (finish_load_on_platform other w (page st + 1) false
                (setPage (page st + 1) st))
      as (newPosts & Hrows & ->); [lia|].
    cbn [fst snd posts page loading hasMore setLoading setHasMore setPosts
         setPage].
    replace (Z.to_nat (page st + 1) * 10)%nat with (10 * S n)%nat in Hrows
      by lia.
    split_and!; [done | | lia | done |].
    + rewrite fmap_app, Hshown, Hrows, <- fmap_app, take_take_drop.
      f_equal. f_equal. lia.
    + rewrite bool_decide_eq_true.
      assert (length newPosts = length (row <$> newPosts)) as ->
        by (by rewrite length_fmap).
      rewrite Hrows, length_fmap, length_take, length_drop. lia.
Qed.

(** X15: a load that the platform rejects leaves the shown posts as they
    are, ends the loading state and stops the infinite scroll; when it is
    the first load of the page, the feed renders as if there were no posts
    at all. *)
Theorem feed_load_rejected {S} (h : Handler S) (s : S) (e : PgError)
    (k : Z) (reset : bool) (st : State) :
  rejects h e →
  (finish h (loadPosts k reset) (st, s)).1
    = setLoading false (setHasMore false st)
  ∧ render (open h s).1 = NoPostsYet.
Proof.
  intros Hrej.
  assert (∀ k reset st,
            (finish h (loadPosts k reset) (st, s)).1
            = setLoading false (setHasMore false st)) as Hload.
  { clear k reset st. intros k reset st.
    unfold finish, settle_on, loadPosts. cbn [request settle fst snd].
    unfold postsApi.getPosts. repeat rejected h Hrej. done. }
  split; [apply Hload|]. unfold open. by rewrite Hload.
Qed.

End FeedPage.

(** ** Writing and deleting comments *)

Section CommentForm.
Import CommentsDialog CommentsDialogActions.

Lemma handleSubmit_accepts (trim : string → string) (user : Auth.User)
    (postId : string) (st : State) :
  submitting st = false → trim (newComment st) ≠ EmptyString →
  ∃ p,
    handleSubmit trim (Some user) postId st
      = (setNewComment EmptyString (setSubmitting true st), Some p)
    ∧ request p
      = commentsApi.createComment postId (Auth.id user)
          (trim (newComment st))
    ∧ (∀ data cur,
         settle p (Returned data) cur
         = (setSubmitting false
              (setComments (appended (comments cur) data) cur),
            [DispatchEvent "comment-added"]))
    ∧ (∀ e cur,
         settle p (Thrown e) cur
         = (setSubmitting false (setNewComment (trim (newComment st)) cur),
            [ConsoleError "Error creating comment:";
             Alert "Failed to post comment"])).
Proof.
  intros Hidle Htext. unfold handleSubmit. rewrite Hidle.
  destruct (String.eqb_spec (trim (newComment st)) EmptyString); [done|].
  cbn. eexists. split; [reflexivity|]. done.
Qed.

Lemma handleSubmit_guard (trim : string → string) (user : option Auth.User)
    (postId : string) (st : State) :
  user = None ∨ trim (newComment st) = EmptyString ∨ submitting st = true →
  handleSubmit trim user postId st = (st, None).
Proof.
  unfold handleSubmit. destruct user as [user|]; [|done].
  intros [?|[->| ->]]; [done|done|]. by rewrite orb_true_r.
Qed.

(** X16: a submission of a non-blank draft by a signed-in user sends one
    [createComment] with the trimmed draft, empties the draft and raises
    [submitting].  When the platform answers with the new comment, the
    thread is the thread of before followed by that comment as its last
    entry, and the [comment-added] event is dispatched; when the request
    fails, the thread is as before, the viewer gets an alert and the draft
    holds the trimmed text again.  Either way [submitting] is lowered. *)
Theorem handleSubmit_appends_or_restores {S} (trim : string → string)
    (h : Handler S) (s : S) (user : Auth.User) (postId : string)
    (st : State) :
  submitting st = false → trim (newComment st) ≠ EmptyString →
  let text := trim (newComment st) in
  let res := (h _ (InsertComment postId (Auth.id user) text) s).1 in
  ∃ st1 p,
    handleSubmit trim (Some user) postId st = (st1, Some p)
    ∧ newComment st1 = EmptyString
    ∧ submitting st1 = true
    ∧ comments st1 = comments st
    ∧ (settle_on h p st1 s).1.2
      = [Ev (InsertComment postId (Auth.id user) text) res]
    ∧ submitting (settle_on h p st1 s).1.1.1 = false
    ∧ match error res with
      | None =>
          comments (settle_on h p st1 s).1.1.1
            = match comments st, data res with
              | Some prev, Some c => Some (prev ++ [c])
              | _, _ => None
              end
          ∧ newComment (settle_on h p st1 s).1.1.1 = EmptyString
          ∧ (settle_on h p st1 s).1.1.2 = [DispatchEvent "comment-added"]
      | Some _ =>
          comments (settle_on h p st1 s).1.1.1 = comments st
          ∧ newComment (settle_on h p st1 s).1.1.1 = text
          ∧ Alert "Failed to post comment" ∈ (settle_on h p st1 s).1.1.2
      end.
Proof.
  intros Hidle Htext text res.
  destruct (handleSubmit_accepts trim user postId st Hidle Htext)
    as (p & Hp & Hreq & Hok & Hfail).
  eexists _, p. split; [exact Hp|]. split_and!; [done..| | |].
  all: unfold settle_on; rewrite Hreq; unfold commentsApi.createComment;
    cbn [mbind Prog_bind bind await run]; subst res text;
    destruct (h _ (InsertComment postId (Auth.id user)
                     (trim (newComment st))) s) as [[d [e|]] s'];
    cbn [run error data fst snd]; rewrite ?Hok, ?Hfail; cbn; try done.
  split_and!; [done..|]. apply list_elem_of_further, list_elem_of_here.
Qed.

Lemma one_submission_step {S} (trim : string → string) (h : Handler S)
    (postId : string) (f : Form S) (ev : FormEvent) :
  one_submission f → one_submission (step trim h postId f ev).
Proof.
  intros [[Hnone Hidle] | (p & Hone & Hbusy & Hlowers)];
    destruct ev as [text | user | i]; unfold step.
  - left. by cbn.
  - destruct user as [user|];
      [destruct (String.eqb_spec (trim (newComment (cells f))) EmptyString)
         as [Hblank|Htext]|].
    + rewrite handleSubmit_guard by auto. left. cbn. by rewrite Hnone.
    + destruct (handleSubmit_accepts trim user postId (cells f) Hidle Htext)
        as (p & -> & _ & Hok & Hfail).
      right. exists p. rewrite Hnone. split_and!; [done..|].
      intros [d|e] cur; by rewrite ?Hok, ?Hfail.
    + rewrite handleSubmit_guard by auto. left. cbn. by rewrite Hnone.
  - rewrite Hnone. cbn. by left.
  - right. exists p. by cbn.
  - rewrite handleSubmit_guard by auto. right. exists p. cbn.
    by rewrite Hone.
  - rewrite Hone. destruct i as [|i]; cbn [lookup list_lookup].
    + destruct (settle_on h p (cells f) (platform f))
        as [[[st' fx] t] s'] eqn:Hsettle.
      left. cbn. split; [done|].
      unfold settle_on in Hsettle.
      destruct (run h (request p) (platform f)) as [[o t'] s''].
      specialize (Hlowers o (cells f)).
      destruct (settle p o (cells f)) as [st'' fx'].
      injection Hsettle as <- _ _ _. done.
    + right. exists p. done.
Qed.

(** X17: the comment form handles one submission at a time.  After any
    sequence of edits, submissions and settlements at most one
    [createComment] is in flight; and a submission is dropped, with no
    request and no change of the cells, when nobody is signed in, when the
    draft is blank after trimming, or while a submission is in flight. *)
Theorem handleSubmit_one_in_flight {S} (trim : string → string)
    (h : Handler S) (postId : string) (s : S) (evs : list FormEvent) :
  let f := foldl (step trim h postId) (start s) evs in
  (length (inflight f) ≤ 1)%nat
  ∧ (∀ user,
       user = None ∨ trim (newComment (cells f)) = EmptyString
       ∨ inflight f ≠ [] →
       handleSubmit trim user postId (cells f) = (cells f, None)
       ∧ step trim h postId f (Submit user) = f).
Proof.
  intros f.
  assert (one_submission f) as Hinv.
  { subst f. induction evs as [|ev evs IH] using rev_ind.
    - by left.
    - rewrite foldl_app. cbn. by apply one_submission_step. }
  split.
  - destruct Hinv as [[-> _] | (p & -> & _)]; cbn; lia.
  - intros user Hwhy.
    assert (handleSubmit trim user postId (cells f) = (cells f, None)) as Hdrop.
    { apply handleSubmit_guard.
      destruct Hwhy as [?|[?|Hbusy]]; [auto..|].
      destruct Hinv as [[Hnone _] | (p & _ & ? & _)]; [done|auto]. }
    split; [done|]. unfold step. rewrite Hdrop.
    destruct f as [st fl pf]. cbn. by rewrite app_nil_r.
Qed.

(** X18: deleting a comment sends [deleteComment] only when the viewer
    confirmed.  When the request comes back without an error, the thread
    loses exactly the comments with that id, the others keep their order,
    and [comment-deleted] is dispatched; when it fails, the thread is as
    before and the viewer gets an alert. *)
Theorem handleDelete_comment {S} (h : Handler S) (s : S)
    (commentId : string) (cur : State) :
  handleDelete commentId false = None
  ∧ ∃ p,
      handleDelete commentId true = Some p
      ∧ let res := (h _ (DeleteComment commentId) s).1 in
        (settle_on h p cur s).1.2 = [Ev (DeleteComment commentId) res]
        ∧ match error res with
          | None =>
              comments (settle_on h p cur s).1.1.1
                = filter (λ c, Comments.id c ≠ commentId) <$> comments cur
              ∧ (settle_on h p cur s).1.1.2
                = [DispatchEvent "comment-deleted"]
          | Some _ =>
              (settle_on h p cur s).1.1.1 = cur
              ∧ Alert "Failed to delete comment" ∈ (settle_on h p cur s).1.1.2
          end.
Proof.
  split; [done|]. eexists. split; [reflexivity|].
  unfold settle_on, commentsApi.deleteComment.
  cbn [request settle mbind Prog_bind bind await run].
  destruct (h _ (DeleteComment commentId) s) as [[d [e|]] s']; cbn.
  - split_and!; [done..|]. apply list_elem_of_further, list_elem_of_here.
  - done.
Qed.

(** X19: a thread whose load the platform rejects renders like a thread
    without comments: the dialog shows "No comments yet". *)
Theorem comments_load_rejected {S} (h : Handler S) (s : S) (e : PgError)
    (user : option Auth.User) (postId : string) :
  rejects h e →
  open_and_render h user postId s = NoCommentsYet.
Proof.
  intros Hrej. unfold open_and_render, loadComments, commentsApi.getComments.
  cbn [fetching loaded]. repeat rejected h Hrej. done.
Qed.

End CommentForm.

(** ** Uploads and the new-post form *)

Lemma has_dot_app (s1 s2 : string) :
  has_dot (s1 +:+ s2) = has_dot s1 || has_dot s2.
Proof.
  induction s1 as [|c s1 IH]; [done|].
  change (has_dot (String c s1 +:+ s2))
    with (Ascii.eqb c "."%char || has_dot (s1 +:+ s2)).
  rewrite IH. cbn [has_dot]. by rewrite orb_assoc.
Qed.

Lemma split_pop_from_no_dot (acc s : string) :
  has_dot acc = false → has_dot (split_pop_from acc s) = false.
Proof.
  revert acc. induction s as [|c s IH]; intros acc Hacc; cbn; [done|].
  destruct (Ascii.eqb c "."%char) eqn:Hc; apply IH; [done|].
  rewrite has_dot_app, Hacc. cbn. by rewrite Hc.
Qed.

Lemma append_empty_r (s : string) : s +:+ EmptyString = s.
Proof.
  induction s as [|c s IH]; [done|].
  change (String c s +:+ EmptyString) with (String c (s +:+ EmptyString)).
  by rewrite IH.
Qed.

Lemma append_snoc (s1 s2 : string) (c : ascii) :
  (s1 +:+ String c EmptyString) +:+ s2 = s1 +:+ String c s2.
Proof.
  induction s1 as [|a s1 IH]; [done|].
  change ((String a s1 +:+ String c EmptyString) +:+ s2)
    with (String a ((s1 +:+ String c EmptyString) +:+ s2)).
  by rewrite IH.
Qed.

Lemma split_pop_from_whole (acc s : string) :
  has_dot s = false → split_pop_from acc s = acc +:+ s.
Proof.
  revert acc. induction s as [|c s IH]; intros acc Hs.
  - cbn [split_pop_from]. by rewrite append_empty_r.
  - cbn [has_dot] in Hs. apply orb_false_elim in Hs as [Hc Hs].
    cbn [split_pop_from]. rewrite Hc, IH by done. apply append_snoc.
Qed.

Lemma split_pop_from_last_dot (acc pre suf : string) :
  has_dot suf = false →
  split_pop_from acc (pre +:+ "." +:+ suf) = suf.
Proof.
  intros Hsuf. revert acc. induction pre as [|c pre IH]; intros acc.
  - change (EmptyString +:+ "." +:+ suf) with (String "."%char suf).
    cbn [split_pop_from]. rewrite Ascii.eqb_refl.
    by rewrite split_pop_from_whole.
  - change (String c pre +:+ "." +:+ suf)
      with (String c (pre +:+ "." +:+ suf)).
    cbn [split_pop_from]. destruct (Ascii.eqb c "."%char); apply IH.
Qed.

(** X20: [uploadAvatar] and [uploadPostImage] upload to one path, made of
    the bucket's folder, the user id, the nonce and the extension of the
    file name.  The extension is what follows the last dot of the name:
    for a name [pre.suf] whose [suf] has no dot it is [suf], and for a name
    without a dot it is the whole name; it never has a dot.  Avatars may
    overwrite, post images may not.  When the upload is refused they throw
    that error and derive no URL; otherwise they return the public URL of
    the very path they uploaded to. *)
Theorem uploads_return_url_of_uploaded_path {S} (h : Handler S) (s : S)
    (userId : string) (file : File) (nonce : string) :
  let ext := split_pop (name file) in
  has_dot ext = false
  ∧ (has_dot (name file) = false → ext = name file)
  ∧ (∀ pre suf,
       name file = pre +:+ "." +:+ suf → has_dot suf = false → ext = suf)
  ∧ (let path := "avatars/" +:+ (userId +:+ "-" +:+ nonce +:+ "." +:+ ext) in
     let r := run h (profilesApi.uploadAvatar userId file nonce) s in
     let up := h _ (StorageUpload "avatars" path true) s in
     uploads r.1.2 = [("avatars", path, true)]
     ∧ match up.1 with
       | Some e => r.1.1 = Thrown e ∧ urls_derived r.1.2 = []
       | None =>
           r.1.1 = Returned (h _ (StorageGetPublicUrl "avatars" path) up.2).1
           ∧ urls_derived r.1.2 = [("avatars", path)]
       end)
  ∧ (let path := "posts/" +:+ (userId +:+ "-" +:+ nonce +:+ "." +:+ ext) in
     let r := run h (postsApi.uploadPostImage userId file nonce) s in
     let up := h _ (StorageUpload "posts" path false) s in
     uploads r.1.2 = [("posts", path, false)]
     ∧ match up.1 with
       | Some e => r.1.1 = Thrown e ∧ urls_derived r.1.2 = []
       | None =>
           r.1.1 = Returned (h _ (StorageGetPublicUrl "posts" path) up.2).1
           ∧ urls_derived r.1.2 = [("posts", path)]
       end).
Proof.
  intros ext. split_and!.
  - by apply split_pop_from_no_dot.
  - intros Hname. subst ext. unfold split_pop.
    by rewrite split_pop_from_whole.
  - intros pre suf Hname Hsuf. subst ext. unfold split_pop.
    rewrite Hname. by apply split_pop_from_last_dot.
  - unfold profilesApi.uploadAvatar. fold ext.
    cbn [mbind Prog_bind bind await run].
    match goal with |- context [h _ (StorageUpload ?b ?p ?u) s] =>
      destruct (h _ (StorageUpload b p u) s) as [[e|] s1] end;
      cbn [mbind Prog_bind bind await run fst snd]; [done|].
    match goal with |- context [h _ (StorageGetPublicUrl ?b ?p) s1] =>
      destruct (h _ (StorageGetPublicUrl b p) s1) as [url s2] end.
    done.
  - unfold postsApi.uploadPostImage. fold ext.
    cbn [mbind Prog_bind bind await run].
    match goal with |- context [h _ (StorageUpload ?b ?p ?u) s] =>
      destruct (h _ (StorageUpload b p u) s) as [[e|] s1] end;
      cbn [mbind Prog_bind bind await run fst snd]; [done|].
    match goal with |- context [h _ (StorageGetPublicUrl ?b ?p) s1] =>
      destruct (h _ (StorageGetPublicUrl b p) s1) as [url s2] end.
    done.
Qed.

Lemma or_null_blank (s : string) :
  CreatePost.or_null s
  = match s with EmptyString => None | String _ _ => Some s end.
Proof. by destruct s. Qed.

Lemma or_string_blank (s d : string) :
  CreatePost.or_string s d
  = match s with EmptyString => d | String _ _ => s end.
Proof. by destruct s. Qed.

(** X21: the new-post form sends nothing without a signed-in user or
    without an image.  Otherwise it uploads the image first and asks for the
    post row only after the upload went through, with the public URL of the
    uploaded file as [image_url] and with the caption, or [null] when the
    caption is the empty string.  It navigates to the feed exactly when both
    requests succeeded; when either fails, no navigation happens and the
    error's message is shown, or "Failed to create post" when the message is
    the empty string.  [loading] is lowered in every case. *)
Theorem createPost_submit {S} (h : Handler S) (s : S)
    (user : option Auth.User) (now : string) (st : CreatePost.State) :
  let r := CreatePost.submit h user now st s in
  let st' := r.1.1.1 in
  let effects := r.1.1.2 in
  let t := r.1.2 in
  let shown (e : PgError) :=
    match message e with
    | EmptyString => "Failed to create post"
    | String _ _ => message e
    end in
  match user, CreatePost.image st with
  | Some u, Some img =>
      let path :=
        "posts/" +:+ (Auth.id u +:+ "-" +:+ now +:+ "."
                      +:+ split_pop (name img)) in
      let up := h _ (StorageUpload "posts" path false) s in
      uploads t = [("posts", path, false)]
      ∧ CreatePost.loading st' = false
      ∧ match up.1 with
        | Some e =>
            posts_inserted t = []
            ∧ effects = []
            ∧ CreatePost.error st' = Some (shown e)
        | None =>
            let url := h _ (StorageGetPublicUrl "posts" path) up.2 in
            let caption :=
              match CreatePost.caption st with
              | EmptyString => None
              | String _ _ => Some (CreatePost.caption st)
              end in
            let ins := h _ (InsertPost (Auth.id u) url.1 caption) url.2 in
            posts_inserted t = [(Auth.id u, url.1, caption)]
            ∧ match error ins.1 with
              | None =>
                  effects = [Navigate "/"] ∧ CreatePost.error st' = None
              | Some e =>
                  effects = [] ∧ CreatePost.error st' = Some (shown e)
              end
        end
  | _, _ => r = (st, [], [], s)
  end.
Proof.
  intros r st' effects t shown. subst r st' effects t shown.
  unfold CreatePost.submit, CreatePost.handleSubmit.
  destruct user as [u|]; [|done].
  destruct (CreatePost.image st) as [img|]; [|done].
  unfold settle_on, postsApi.uploadPostImage, postsApi.createPost.
  rewrite or_null_blank.
  cbn [request settle mbind Prog_bind bind await run].
  match goal with |- context [h _ (StorageUpload ?b ?p ?f) s] =>
    destruct (h _ (StorageUpload b p f) s) as [[e|] s1] end;
    cbn [mbind Prog_bind bind await run fst snd].
  { by rewrite or_string_blank. }
  match goal with |- context [h _ (StorageGetPublicUrl ?b ?p) s1] =>
    destruct (h _ (StorageGetPublicUrl b p) s1) as [url s2] end.
  cbn [mbind Prog_bind bind await run fst snd].
  match goal with |- context [h _ (InsertPost ?a ?b ?c) s2] =>
    destruct (h _ (InsertPost a b c) s2) as [[d [e|]] s3] end;
    cbn [mbind Prog_bind bind await run fst snd error data];
    rewrite ?or_string_blank; cbn; done.
Qed.

(** ** The session store *)

(** X22: [fetchProfile] never throws.  When the lookup reports an error the
    stored profile becomes [null] and the error is only logged; otherwise
    the stored profile is the row the platform answered with. *)
Theorem fetchProfile_never_throws {S} (h : Handler S) (s : S)
    (userId : string) :
  let res := (h _ (SelectProfileById userId) s).1 in
  let r := run h (authStore.fetchProfile userId) s in
  r.1.2 = [Ev (SelectProfileById userId) res]
  ∧ match error res with
    | Some _ =>
        r.1.1 = Returned (None, [ConsoleError "Error fetching profile:"])
    | None => r.1.1 = Returned (data res, [])
    end.
Proof.
  intros res r. subst res r. unfold authStore.fetchProfile.
  cbn [mbind Prog_bind bind await run].
  by destruct (h _ (SelectProfileById userId) s) as [[d [e|]] s'].
Qed.

(** ** Loading a profile page *)

Section ProfileLoading.
Import ProfilePage.

Lemma is_somebody_else_true (user : option Auth.User) (pd : Profiles.row) :
  is_somebody_else user pd = true →
  ∃ u, user = Some u ∧ Profiles.id pd ≠ Auth.id u.
Proof.
  destruct user as [u|]; cbn; [|done]. intros Hne. exists u. split; [done|].
  apply negb_true_iff in Hne. by apply String.eqb_neq in Hne.
Qed.

(** X23: [loadProfile] never throws: it ends with no effect, or with a
    logged error and a navigation to the feed, and in both cases with
    [loading] lowered; without a username it does nothing at all.  The
    three counts are asked for together or not at all.  The follow state is
    looked up at most once, and only for a signed-in viewer on the loaded
    profile of somebody else, for the pair viewer, profile. *)
Theorem loadProfile_outcome {S} (h : Handler S) (s : S)
    (username : option string) (user : option Auth.User) (pg : Page) :
  let r := run h (loadProfile username user pg) s in
  ∃ pg' effects,
    r.1.1 = Returned (pg', effects)
    ∧ (effects = []
       ∨ effects = [ConsoleError "Error loading profile:"; Navigate "/"])
    ∧ (if truthy username then loading pg' = false
       else pg' = pg ∧ r.1.2 = [])
    ∧ (issued is_count_query r.1.2 = 0 ∨ issued is_count_query r.1.2 = 3)%nat
    ∧ (follow_lookups r.1.2 = []
       ∨ ∃ u pd,
           user = Some u
           ∧ Profile.profile (cells pg') = Some pd
           ∧ Profiles.id pd ≠ Auth.id u
           ∧ follow_lookups r.1.2 = [(Auth.id u, Profiles.id pd)]).
Proof.
  intros r. subst r. unfold loadProfile.
  destruct (truthy username) eqn:Hname; cbn [negb].
  2:{ cbn. eexists _, _. split; [reflexivity|]. auto. }
  unfold profilesApi.getProfileByUsername, postsApi.getPosts,
    followsApi.getPostsCount, followsApi.getFollowersCount,
    followsApi.getFollowingCount, followsApi.isFollowing.
  follow_requests h.
  all: cbn; eexists _, _; (split; [reflexivity|]).
  all: split_and!; auto.
  all: match goal with
       | H : is_somebody_else _ _ = true |- _ =>
           apply is_somebody_else_true in H as (u & -> & Hne)
       end.
  all: right; eexists _, _; split_and!; [reflexivity | reflexivity | done
                                          | reflexivity].
Qed.

(** X24: when the lookup of the username is answered with an error (an
    unknown username among them), [loadProfile] sends no further request,
    logs the error and navigates to the feed. *)
Theorem loadProfile_unknown_username {S} (h : Handler S) (s : S)
    (username : string) (user : option Auth.User) (pg : Page) (e : PgError) :
  username ≠ EmptyString →
  let res := (h _ (SelectProfileByUsername username) s).1 in
  error res = Some e →
  (run h (loadProfile (Some username) user pg) s).1
  = (Returned (setLoading false (setLoading true pg),
               [ConsoleError "Error loading profile:"; Navigate "/"]),
     [Ev (SelectProfileByUsername username) res]).
Proof.
  intros Hname res Herr. subst res. unfold loadProfile. cbn [truthy].
  destruct (String.eqb_spec username EmptyString); [done|]. cbn [negb].
  unfold profilesApi.getProfileByUsername.
  cbn [mbind Prog_bind bind await run try_ default from_option id].
  destruct (h _ (SelectProfileByUsername username) s) as [[d err] s1].
  cbn in Herr. subst err. done.
Qed.

End ProfileLoading.

(** ** Saving the edit dialog of a profile *)

Lemma run_try {S A} (h : Handler S) (p : Prog A) (s : S) :
  run h (try_ p) s =
    let '(o, t, s') := run h p s in (Returned o, t, s').
Proof.
  revert s. induction p as [a|e|X r k IH]; intros s; cbn; [done..|].
  destruct (h X r s) as [x s1]. rewrite IH.
  by destruct (run h (k x) s1) as [[o t] s2].
Qed.

Lemma uploads_app (t1 t2 : list Event) :
  uploads (t1 ++ t2) = uploads t1 ++ uploads t2.
Proof. unfold uploads. apply bind_app. Qed.

Lemma profile_updates_app (t1 t2 : list Event) :
  profile_updates (t1 ++ t2) = profile_updates t1 ++ profile_updates t2.
Proof. unfold profile_updates. apply bind_app. Qed.

Lemma fetchProfile_returns {S} (h : Handler S) (s : S) (userId : string) :
  ∃ stored,
    (run h (authStore.fetchProfile userId) s).1.1 = Returned stored
    ∧ NavigateReplace_free stored.2
    ∧ uploads (run h (authStore.fetchProfile userId) s).1.2 = []
    ∧ profile_updates (run h (authStore.fetchProfile userId) s).1.2 = [].
Proof.
  unfold authStore.fetchProfile. cbn [mbind Prog_bind bind await run].
  destruct (h _ (SelectProfileById userId) s) as [[d [e|]] s']; cbn;
    eexists; split_and!; try reflexivity; cbn; repeat constructor.
Qed.

Lemma loadProfile_returns {S} (h : Handler S) (s : S)
    (username : option string) (user : option Auth.User)
    (pg : ProfilePage.Page) :
  ∃ reloaded,
    (run h (ProfilePage.loadProfile username user pg) s).1.1
      = Returned reloaded
    ∧ NavigateReplace_free reloaded.2
    ∧ uploads (run h (ProfilePage.loadProfile username user pg) s).1.2 = []
    ∧ profile_updates
        (run h (ProfilePage.loadProfile username user pg) s).1.2 = [].
Proof.
  unfold ProfilePage.loadProfile.
  destruct (truthy username) eqn:Hname; cbn [negb].
  2:{ cbn. eexists. split_and!; try reflexivity. constructor. }
  unfold profilesApi.getProfileByUsername, postsApi.getPosts,
    followsApi.getPostsCount, followsApi.getFollowersCount,
    followsApi.getFollowingCount, followsApi.isFollowing.
  follow_requests h.
  all: cbn; eexists; split_and!; try reflexivity; cbn; repeat constructor.
Qed.

Lemma NavigateReplace_iff (fx1 fx2 : list Effect) (a b to : string) :
  NavigateReplace_free fx1 → NavigateReplace_free fx2 →
  NavigateReplace to
    ∈ fx1 ++ fx2 ++ (if String.eqb a b then [] else [NavigateReplace to])
  ↔ a ≠ b.
Proof.
  intros H1 H2.
  assert (∀ fx, NavigateReplace_free fx → NavigateReplace to ∉ fx) as Hfree.
  { intros fx Hfx Hin. unfold NavigateReplace_free in Hfx.
    rewrite Forall_forall in Hfx. by apply Hfx in Hin. }
  rewrite !elem_of_app. destruct (String.eqb_spec a b) as [Heq|Hne].
  - split; [|done]. intros [Hin|[Hin|Hin]].
    + by apply Hfree in Hin.
    + by apply Hfree in Hin.
    + by apply elem_of_nil in Hin.
  - split; [done|]. intros _. right. right. apply list_elem_of_singleton. done.
Qed.

(** What [save] does once the avatar's URL is settled: one update of the
    viewer's row, and the two reloads only if it was accepted. *)
Lemma save_after_avatar {S} (h : Handler S) (s : S) (route : option string)
    (user : Auth.User) (updates : ProfileUpdates) (pg : ProfilePage.Page)
    (B : Type) (k : option Profiles.row * list Effect
                    → ProfilePage.Page * list Effect → B) :
  let res := (h _ (UpdateProfile (Auth.id user) updates) s).1 in
  let r := run h
    (bind (profilesApi.updateProfile (Auth.id user) updates)
       (λ _, bind (authStore.fetchProfile (Auth.id user))
          (λ stored, bind (ProfilePage.loadProfile route (Some user) pg)
             (λ reloaded, Return (k stored reloaded))))) s in
  uploads r.1.2 = []
  ∧ profile_updates r.1.2 = [(Auth.id user, updates, error res)]
  ∧ match error res with
    | Some e => r.1.1 = Thrown e
    | None =>
        ∃ stored reloaded,
          r.1.1 = Returned (k stored reloaded)
          ∧ NavigateReplace_free stored.2
          ∧ NavigateReplace_free reloaded.2
    end.
Proof.
  intros res r. subst res r.
  unfold profilesApi.updateProfile, mbind, Prog_bind.
  cbn [bind await run].
  destruct (h _ (UpdateProfile (Auth.id user) updates) s)
    as [[dt [e|]] s1] eqn:Hupd; cbn [error data bind run fst snd].
  { by cbn. }
  rewrite run_bind.
  destruct (fetchProfile_returns h s1 (Auth.id user))
    as (stored & Hs & Hfree & Hu & Hp).
  destruct (run h (authStore.fetchProfile (Auth.id user)) s1)
    as [[o1 t1] s2].
  cbn [fst snd] in Hs, Hu, Hp. subst o1.
  rewrite run_bind.
  destruct (loadProfile_returns h s2 route (Some user) pg)
    as (reloaded & Hr & Hfree' & Hu' & Hp').
  destruct (run h (ProfilePage.loadProfile route (Some user) pg) s2)
    as [[o2 t2] s3].
  cbn [fst snd] in Hr, Hu', Hp'. subst o2.
  cbn [run fst snd].
  change (Ev ?r ?x :: ?t) with ([Ev r x] ++ t).
  rewrite !uploads_app, !profile_updates_app, Hu, Hu', Hp, Hp'.
  cbn. split_and!; [done..|].
  by exists stored, reloaded.
Qed.

(** [updates_of], field by field. *)
Lemma updates_of_fields (formData : ProfileEdit.FormData)
    (avatarUrl : option string) :
  ProfileEdit.updates_of formData avatarUrl
  = {| upd_username := Some (ProfileEdit.username formData);
       upd_full_name :=
         Some match ProfileEdit.full_name formData with
              | EmptyString => None
              | String _ _ => Some (ProfileEdit.full_name formData)
              end;
       upd_bio :=
         Some match ProfileEdit.bio formData with
              | EmptyString => None
              | String _ _ => Some (ProfileEdit.bio formData)
              end;
       upd_avatar_url :=
         Some match avatarUrl with
              | Some (String _ _ as url) => Some url
              | _ => None
              end |}.
Proof.
  unfold ProfileEdit.updates_of. rewrite !or_null_blank.
  by destruct avatarUrl as [[|? ?]|].
Qed.

(** X25: [handleEditProfile] of the profile page, for a signed-in viewer
    on a loaded profile.  It always returns with [editLoading] lowered.
    With an avatar chosen it uploads it first, to the avatars path of the
    viewer; when that upload is refused, no profile update is sent.  With
    no avatar chosen nothing is uploaded.  Otherwise exactly one profile
    update is sent, for the viewer's own row: the form's username, the
    form's [full_name] and [bio] with [null] in place of an empty string,
    and as avatar the public URL of the upload or, with no avatar chosen,
    the stored avatar ([null] in place of an empty or missing one).  When
    the upload or the update is refused, the page and the dialog are as
    before and the alert shows the message of that error, or 'Failed to
    update profile' when the message is the empty string.  When the update
    is accepted, the dialog is closed and the route is replaced by the new
    profile route exactly when the username changed. *)
Theorem handleEditProfile_saves {S} (h : Handler S) (s : S)
    (route : option string) (user : Auth.User) (profile : Profiles.row)
    (formData : ProfileEdit.FormData) (random : string)
    (pg : ProfilePage.Page) (d : ProfileEdit.Dialog) :
  Profile.profile (ProfilePage.cells pg) = Some profile →
  let r := run h (ProfileEdit.handleEditProfile route (Some user) formData
                    random pg d) s in
  ∃ pg' d' fx,
    r.1.1 = Returned (pg', d', fx)
    ∧ ProfileEdit.editLoading d' = false
    ∧ let refused (e : PgError) :=
        pg' = pg
        ∧ ProfileEdit.isEditDialogOpen d' = ProfileEdit.isEditDialogOpen d
        ∧ fx = [ConsoleError "Error updating profile:";
                Alert match message e with
                      | EmptyString => "Failed to update profile"
                      | String _ _ => message e
                      end] in
      let saved (avatarUrl : option string) (s0 : S) :=
        let updates :=
          {| upd_username := Some (ProfileEdit.username formData);
             upd_full_name :=
               Some match ProfileEdit.full_name formData with
                    | EmptyString => None
                    | String _ _ => Some (ProfileEdit.full_name formData)
                    end;
             upd_bio :=
               Some match ProfileEdit.bio formData with
                    | EmptyString => None
                    | String _ _ => Some (ProfileEdit.bio formData)
                    end;
             upd_avatar_url :=
               Some match avatarUrl with
                    | Some (String _ _ as url) => Some url
                    | _ => None
                    end |} in
        let res := (h _ (UpdateProfile (Auth.id user) updates) s0).1 in
        profile_updates r.1.2 = [(Auth.id user, updates, error res)]
        ∧ match error res with
          | Some e => refused e
          | None =>
              ProfileEdit.isEditDialogOpen d' = false
              ∧ (NavigateReplace
                   ("/profile/" +:+ ProfileEdit.username formData) ∈ fx
                 ↔ ProfileEdit.username formData
                   ≠ Profiles.username profile)
          end in
      match ProfileEdit.avatar formData with
      | Some file =>
          let path :=
            "avatars/" +:+ (Auth.id user +:+ "-" +:+ random +:+ "."
                            +:+ split_pop (name file)) in
          let up := h _ (StorageUpload "avatars" path true) s in
          uploads r.1.2 = [("avatars", path, true)]
          ∧ match up.1 with
            | Some e => profile_updates r.1.2 = [] ∧ refused e
            | None =>
                let url := h _ (StorageGetPublicUrl "avatars" path) up.2 in
                saved (Some url.1) url.2
            end
      | None =>
          uploads r.1.2 = [] ∧ saved (Profiles.avatar_url profile) s
      end.
Proof.
  intros Hprofile r. subst r.
  unfold ProfileEdit.handleEditProfile. rewrite Hprofile.
  unfold mbind, Prog_bind. rewrite run_bind, run_try.
  unfold ProfileEdit.save. unfold mbind, Prog_bind.
  destruct (ProfileEdit.avatar formData) as [file|] eqn:Havatar.
  - unfold profilesApi.uploadAvatar, mbind, Prog_bind.
    cbv beta zeta. cbn [bind await run].
    destruct (h _ (StorageUpload _ _ _) s) as [[e|] s1].
    { cbn [bind run fst snd]. rewrite or_string_blank.
      eexists _, _, _. split_and!; try reflexivity. }
    cbn [bind await run fst snd].
    destruct (h _ (StorageGetPublicUrl _ _) s1) as [url s2].
    cbn [bind fst snd]. rewrite updates_of_fields. cbv beta iota zeta.
    match goal with
    | |- context [run h (bind (profilesApi.updateProfile _ ?upd) ?f) s2] =>
        pose proof (save_after_avatar h s2 route user upd pg
                      _ (λ stored reloaded,
                           (reloaded.1,
                            ProfileEdit.setIsEditDialogOpen false
                              (ProfileEdit.setEditLoading true d),
                            stored.2 ++ reloaded.2
                            ++ (if String.eqb (ProfileEdit.username formData)
                                     (Profiles.username profile)
                                then []
                                else [NavigateReplace
                                        ("/profile/"
                                         +:+ ProfileEdit.username formData)]))))
          as Htail
    end.
    cbv beta zeta in Htail. revert Htail.
    match goal with
    | |- context [run h ?p s2] => generalize (run h p s2)
    end.
    intros [[o t] s3] (Hup & Hupd & Hout). cbn [fst snd] in *.
    destruct (error (h _ (UpdateProfile _ _) s2).1) as [e|].
    + subst o. cbn [run fst snd]. rewrite app_nil_r.
      change (Ev ?a ?b :: Ev ?c ?e' :: t) with ([Ev a b; Ev c e'] ++ t).
      rewrite uploads_app, profile_updates_app, Hup, Hupd, or_string_blank.
      eexists _, _, _. split_and!; reflexivity.
    + destruct Hout as (stored & reloaded & -> & Hf & Hf').
      cbn [run fst snd]. rewrite app_nil_r.
      change (Ev ?a ?b :: Ev ?c ?e' :: t) with ([Ev a b; Ev c e'] ++ t).
      rewrite uploads_app, profile_updates_app, Hup, Hupd.
      eexists _, _, _. split_and!; try reflexivity.
      by apply NavigateReplace_iff.
  - cbn [bind]. rewrite updates_of_fields. cbv beta iota zeta.
    match goal with
    | |- context [run h (bind (profilesApi.updateProfile _ ?upd) ?f) s] =>
        pose proof (save_after_avatar h s route user upd pg
                      _ (λ stored reloaded,
                           (reloaded.1,
                            ProfileEdit.setIsEditDialogOpen false
                              (ProfileEdit.setEditLoading true d),
                            stored.2 ++ reloaded.2
                            ++ (if String.eqb (ProfileEdit.username formData)
                                     (Profiles.username profile)
                                then []
                                else [NavigateReplace
                                        ("/profile/"
                                         +:+ ProfileEdit.username formData)]))))
          as Htail
    end.
    cbv beta zeta in Htail. revert Htail.
    match goal with
    | |- context [run h ?p s] => generalize (run h p s)
    end.
    intros [[o t] s3] (Hup & Hupd & Hout). cbn [fst snd] in *.
    destruct (error (h _ (UpdateProfile _ _) s).1) as [e|].
    + subst o. cbn [run fst snd]. rewrite app_nil_r, Hup, Hupd, or_string_blank.
      eexists _, _, _. split_and!; reflexivity.
    + destruct Hout as (stored & reloaded & -> & Hf & Hf').
      cbn [run fst snd]. rewrite app_nil_r, Hup, Hupd.
      eexists _, _, _. split_and!; try reflexivity.
      by apply NavigateReplace_iff.
Qed.

(** ** The properties above on the sample platform *)

Lemma getPosts_page_on_platform_witness :
  let posts := Sample.feed None in
  (length posts ≤ 10)%nat
  ∧ StronglySorted Supabase.post_newer (row <$> posts).
Proof.
  intros posts.
  destruct (getPosts_page_on_platform (rejecting Sample.offline)
              (Sample.home None) 10 0 None posts) as (Hlen & Hsorted & _);
    [lia | lia | reflexivity |].
  exact (conj Hlen Hsorted).
Defined.

Lemma likePost_then_isLiked_witness :
  let liked :=
    run Sample.platform (likesApi.likePost "p-1" "u-alice")
      (Sample.home (Some "u-alice")) in
  liked.1.1 = Returned ()
  ∧ (run Sample.platform (likesApi.isLiked "p-1" "u-alice") liked.2).1.1
    = Returned true
  ∧ (run Sample.platform (likesApi.likePost "p-1" "u-alice") liked.2).1.1
    = Thrown Supabase.unique_violation.
Proof.
  intros liked.
  destruct (likePost_then_isLiked (rejecting Sample.offline)
              (Sample.home (Some "u-alice")) "p-1" "u-alice" eq_refl)
    as (Hliked & Hagain & _).
  split; [reflexivity|]. exact (conj Hliked Hagain).
Defined.

Lemma unlikePost_then_isLiked_witness :
  let unliked :=
    run Sample.platform (likesApi.unlikePost "p-2" "u-alice")
      (Sample.home (Some "u-alice")) in
  unliked.1.1 = Returned ()
  ∧ (run Sample.platform (likesApi.isLiked "p-2" "u-alice") unliked.2).1.1
    = Returned false.
Proof.
  intros unliked.
  destruct (unlikePost_then_isLiked (rejecting Sample.offline)
              (Sample.home (Some "u-alice")) "p-2" "u-alice" eq_refl)
    as (Hret & _ & Hliked).
  exact (conj Hret Hliked).
Defined.

Lemma follow_then_isFollowing_witness :
  let w := Sample.home (Some "u-alice") in
  let followed :=
    run Sample.platform (followsApi.followUser "u-alice" "u-bob") w in
  let unfollowed :=
    run Sample.platform (followsApi.unfollowUser "u-alice" "u-bob")
      followed.2 in
  followed.1.1 = Returned ()
  ∧ (run Sample.platform (followsApi.isFollowing "u-alice" "u-bob")
       followed.2).1.1 = Returned true
  ∧ (run Sample.platform (followsApi.isFollowing "u-alice" "u-bob")
       unfollowed.2).1.1 = Returned false.
Proof.
  intros w followed unfollowed.
  destruct (follow_then_isFollowing (rejecting Sample.offline) w
              "u-alice" "u-bob") as [Hfollow _].
  destruct (follow_then_isFollowing (rejecting Sample.offline) followed.2
              "u-alice" "u-bob") as [_ Hunfollow].
  destruct (Hfollow eq_refl) as (Hyes & _).
  destruct (Hunfollow eq_refl) as (_ & Hno).
  split; [reflexivity|]. exact (conj Hyes Hno).
Defined.

Lemma acting_for_another_user_witness :
  let w := Sample.home (Some "u-alice") in
  (run Sample.platform (likesApi.likePost "p-1" "u-bob") w).1.1
    = Thrown Supabase.rls_violation
  ∧ (run Sample.platform (likesApi.unlikePost "p-2" "u-bob") w)
    = (Returned (), [Ev (DeleteLike "p-2" "u-bob") Supabase.no_content], w).
Proof.
  intros w.
  assert (Supabase.auth_uid w ≠ Some "u-bob") as Hother by (vm_compute; congruence).
  destruct (acting_for_another_user (rejecting Sample.offline) w
              "p-1" "u-bob" Hother) as (Hlike & _).
  destruct (acting_for_another_user (rejecting Sample.offline) w
              "p-2" "u-bob" Hother) as (_ & _ & Hunlike & _).
  split; [|exact Hunlike].
  exact (f_equal (λ r, r.1.1) Hlike).
Defined.

Lemma sample_consistent (viewer : option string) :
  Tables.consistent (Sample.home viewer).
Proof.
  split_and!.
  - apply (bool_decide_unpack _). vm_compute. exact I.
  - apply NoDup_nil_2.
  - constructor.
Defined.

Lemma programs_keep_tables_consistent_witness :
  Tables.consistent
    (run Sample.platform
       (_ ← likesApi.likePost "p-1" "u-alice";
        _ ← followsApi.followUser "u-alice" "u-bob";
        likesApi.likePost "p-1" "u-alice")
       (Sample.home (Some "u-alice"))).2.
Proof.
  apply (programs_keep_tables_consistent (rejecting Sample.offline)).
  apply sample_consistent.
Defined.

Lemma lookups_are_exact_witness :
  let w := Sample.home (Some "u-alice") in
  (run Sample.platform (likesApi.isLiked "p-2" "u-alice") w).1.1
    = Returned true
  ∧ (run Sample.platform (followsApi.isFollowing "u-alice" "u-bob") w).1.1
    = Returned false.
Proof.
  intros w.
  destruct (lookups_are_exact (rejecting Sample.offline) w "p-2" "u-alice"
              (sample_consistent _)) as [Hliked _].
  destruct (lookups_are_exact (rejecting Sample.offline) w "u-alice" "u-bob"
              (sample_consistent _)) as [_ Hfollowing].
  exact (conj Hliked Hfollowing).
Defined.


Lemma handleFollow_optimistic_then_reverts_witness :
  let env := {| Profile.username := Some "bob";
                Profile.user := Some Sample.signed_in;
                Profile.currentProfile := Some Sample.alice |} in
  let st := {| Profile.profile := Some Sample.bob;
               Profile.followersCount := 0;
               Profile.isFollowing := false |} in
  ∃ st1 k,
    Profile.handleFollow env st = (st1, Some k)
    ∧ Profile.isFollowing st1 = true
    ∧ Profile.followersCount st1 = 1
    ∧ awaiting k = followsApi.followUser "u-alice" "u-bob".
Proof.
  intros env st.
  destruct (handleFollow_optimistic_then_reverts Sample.platform
              (Sample.home (Some "u-alice")) env st Sample.signed_in
              Sample.bob eq_refl eq_refl eq_refl)
    as (st1 & k & Hclick & Hflag & Hcount & Hreq & _).
  exists st1, k. exact (conj Hclick (conj Hflag (conj Hcount Hreq))).
Defined.

Lemma handleFollow_accepts_while_pending_witness :
  let env := {| Profile.username := Some "bob";
                Profile.user := Some Sample.signed_in;
                Profile.currentProfile := Some Sample.alice |} in
  let st := {| Profile.profile := Some Sample.bob;
               Profile.followersCount := 0;
               Profile.isFollowing := false |} in
  ∃ st1 k1 st2 k2,
    Profile.handleFollow env st = (st1, Some k1)
    ∧ Profile.handleFollow env st1 = (st2, Some k2)
    ∧ awaiting k2 = followsApi.unfollowUser "u-alice" "u-bob"
    ∧ Profile.isFollowing st2 = false
    ∧ Profile.followersCount st2 = 0.
Proof.
  intros env st.
  destruct (handleFollow_accepts_while_pending env st Sample.signed_in
              Sample.bob eq_refl eq_refl eq_refl)
    as (st1 & k1 & st2 & k2 & Hfirst & Hsecond & _ & Hreq & Hflag & Hcount).
  exists st1, k1, st2, k2.
  exact (conj Hfirst (conj Hsecond (conj Hreq (conj Hflag Hcount)))).
Defined.

Lemma feed_load_rejected_witness :
  let offline := stateless (rejecting Sample.offline) in
  Feed.render (Feed.open offline ()).1 = Feed.NoPostsYet
  ∧ Feed.hasMore (Feed.finish offline (Feed.loadPosts 0 true)
                    (Feed.mount, ())).1 = false.
Proof.
  intros offline.
  destruct (feed_load_rejected offline () Sample.offline 0 true Feed.mount
              (rejecting_rejects Sample.offline)) as [Hcells Hview].
  split; [exact Hview|]. exact (f_equal Feed.hasMore Hcells).
Defined.

Lemma handleSubmit_appends_or_restores_witness :
  let st := CommentsDialogActions.setNewComment "hi"
              (CommentsDialog.setComments (Some [Sample.commentA])
                 CommentsDialog.mount) in
  ∃ st1 p,
    CommentsDialogActions.handleSubmit id (Some Sample.signed_in) "p-1" st
      = (st1, Some p)
    ∧ CommentsDialog.newComment st1 = EmptyString
    ∧ CommentsDialog.comments
        (settle_on (stateless Scenario.accepting) p st1 ()).1.1.1
      = Some [Sample.commentA; Scenario.new_comment "p-1" "u-alice" "hi"]
    ∧ CommentsDialog.newComment
        (settle_on (stateless (rejecting Sample.offline)) p st1 ()).1.1.1
      = "hi".
Proof.
  intros st.
  destruct (handleSubmit_appends_or_restores id
              (stateless Scenario.accepting) () Sample.signed_in "p-1" st
              eq_refl ltac:(discriminate))
    as (st1 & p & Hsubmit & Hdraft & _ & _ & _ & _ & Hthread & _).
  destruct (handleSubmit_appends_or_restores id
              (stateless (rejecting Sample.offline)) () Sample.signed_in
              "p-1" st eq_refl ltac:(discriminate))
    as (st1' & p' & Hsubmit' & _ & _ & _ & _ & _ & _ & Hrestored & _).
  rewrite Hsubmit in Hsubmit'. injection Hsubmit' as <- <-.
  exists st1, p. exact (conj Hsubmit (conj Hdraft (conj Hthread Hrestored))).
Defined.

Lemma comments_load_rejected_witness :
  CommentsDialog.open_and_render (stateless (rejecting Sample.offline))
    (Some Sample.signed_in) "p-1" ()
  = CommentsDialog.NoCommentsYet.
Proof.
  exact (comments_load_rejected (stateless (rejecting Sample.offline)) ()
           Sample.offline (Some Sample.signed_in) "p-1"
           (rejecting_rejects Sample.offline)).
Defined.

Lemma loadProfile_unknown_username_witness :
  let pg := {| ProfilePage.cells := Sample.own_page_cells;
               ProfilePage.posts := []; ProfilePage.postsCount := 0;
               ProfilePage.followingCount := 0;
               ProfilePage.loading := false |} in
  (run (stateless (rejecting Sample.offline))
     (ProfilePage.loadProfile (Some "nobody") None pg) ()).1.1
  = Returned (pg, [ConsoleError "Error loading profile:"; Navigate "/"]).
Proof.
  intros pg.
  exact (f_equal fst
           (loadProfile_unknown_username (stateless (rejecting Sample.offline))
              () "nobody" None pg Sample.offline
              ltac:(discriminate) eq_refl)).
Defined.

Lemma handleEditProfile_saves_witness :
  let pg := {| ProfilePage.cells := Sample.own_page_cells;
               ProfilePage.posts := []; ProfilePage.postsCount := 0;
               ProfilePage.followingCount := 0;
               ProfilePage.loading := false |} in
  let formData := {| ProfileEdit.username := "alice2";
                     ProfileEdit.full_name := EmptyString;
                     ProfileEdit.bio := "hello";
                     ProfileEdit.avatar := None |} in
  let d := {| ProfileEdit.isEditDialogOpen := true;
              ProfileEdit.editLoading := false |} in
  let r := run (Supabase.supabase Scenario.accepting)
             (ProfileEdit.handleEditProfile (Some "alice")
                (Some Sample.signed_in) formData "0.5" pg d)
             (Sample.home (Some "u-alice")) in
  ∃ pg' d' fx,
    r.1.1 = Returned (pg', d', fx)
    ∧ ProfileEdit.editLoading d' = false
    ∧ uploads r.1.2 = []
    ∧ (fst <$> profile_updates r.1.2)
      = [("u-alice",
          {| upd_username := Some "alice2"; upd_full_name := Some None;
             upd_bio := Some (Some "hello");
             upd_avatar_url := Some None |})]
    ∧ ProfileEdit.isEditDialogOpen d' = false
    ∧ NavigateReplace "/profile/alice2" ∈ fx.
Proof.
  intros pg formData d r.
  destruct (handleEditProfile_saves (Supabase.supabase Scenario.accepting)
              (Sample.home (Some "u-alice")) (Some "alice") Sample.signed_in
              Sample.alice formData "0.5" pg d eq_refl)
    as (pg' & d' & fx & Hret & Hloading & Huploads & Hupdate & Hclosed & Hnav).
  exists pg', d', fx. split_and!.
  - exact Hret.
  - exact Hloading.
  - exact Huploads.
  - exact (f_equal (fmap fst) Hupdate).
  - exact Hclosed.
  - apply Hnav. discriminate.
Defined.

Lemma uploads_return_url_of_uploaded_path_witness :
  split_pop "photo.tar.png" = "png"
  ∧ split_pop "README" = "README"
  ∧ uploads (run Sample.platform
               (postsApi.uploadPostImage "u-alice"
                  {| name := "photo.tar.png" |} "1700000000000")
               (Sample.home (Some "u-alice"))).1.2
    = [("posts", "posts/u-alice-1700000000000.png", false)].
Proof.
  destruct (uploads_return_url_of_uploaded_path Sample.platform
              (Sample.home (Some "u-alice")) "u-alice"
              {| name := "photo.tar.png" |} "1700000000000")
    as (_ & _ & Hlast & _ & Hpost & _).
  destruct (uploads_return_url_of_uploaded_path Sample.platform
              (Sample.home (Some "u-alice")) "u-alice"
              {| name := "README" |} "1700000000000")
    as (_ & Hwhole & _).
  split_and!.
  - exact (Hlast "photo.tar" "png" eq_refl eq_refl).
  - exact (Hwhole eq_refl).
  - exact Hpost.
Defined.
